(** * InterChat server: a shallow embedding of [server.js]

    The server is a single Express process.  It proxies the OpenPhone REST
    API, optionally translates outgoing text through one of several
    back-ends, and fans inbound webhook events out to the browsers connected
    to the server-sent-events endpoint.

    The embedding follows the source function by function:

    - JavaScript values are the JSON fragment the handlers receive
      ([value]); property reads, optional chaining, [||], template literals
      and the handful of methods the source calls are given their
      ECMAScript meaning on that fragment, exceptions included;
    - an [async] function is a computation in the monad [M]: it threads the
      process state ([World]: the upstream calls issued so far, the lines
      written with [console.error], the subscriber set and what was written
      to each subscriber) and ends either normally or by throwing;
    - what the outside does (the answer to a [fetch], whether a write to a
      subscriber succeeds) is an oracle ([Platform]), so that every theorem
      holds for every behaviour of the network and of the clients;
    - the process environment is a record of optional strings ([Env]), and
      the module-level constants of the source are functions of it.

    Strings are sequences of 8-bit characters; case conversion and trimming
    are the ASCII ones.  Numbers are the integers: the handlers only look
    at whether a number is zero, at its text, and at how it compares with
    0 and 1.  The conversion of a string to a number, which a comparison
    can ask for, is left to the platform.  One request is handled from
    start to end: the interleaving of requests at [await] points is not
    part of the model. *)

From Stdlib Require Import List String Ascii ZArith Bool Lia DecimalString.
Import ListNotations.

Open Scope string_scope.
Open Scope list_scope.

Infix "+++" := String.append (right associativity, at level 60).

#[local] Set Warnings "-register-all".

(** ** JavaScript values *)

Inductive value : Type :=
| VUndefined
| VNull
| VBool (b : bool)
| VNum (n : Z)
| VStr (s : string)
| VArr (items : list value)
| VObj (props : list (string * value)).

(** Thrown values are [Error] objects: a constructor name and a message. *)
Record error : Type := JsError { err_name : string; err_message : string }.

Definition TypeError (msg : string) : error := JsError "TypeError" msg.
Definition Error (msg : string) : error := JsError "Error" msg.

Inductive completion (A : Type) : Type :=
| Normal (a : A)
| Throw (e : error).
Arguments Normal {A} a.
Arguments Throw {A} e.

Definition cbind {A B : Type} (c : completion A) (f : A -> completion B)
  : completion B :=
  match c with
  | Normal a => f a
  | Throw e => Throw e
  end.

Notation "x <~ c ; k" := (cbind c (fun x => k))
  (at level 61, c at next level, right associativity).

Definition nl : string := String (ascii_of_nat 10) EmptyString.
Definition dquote : string := String (ascii_of_nat 34) EmptyString.
Definition backslash : string := String (ascii_of_nat 92) EmptyString.

Definition is_empty (s : string) : bool :=
  match s with
  | EmptyString => true
  | String _ _ => false
  end.

(** [ToBoolean]. *)
Definition truthy (v : value) : bool :=
  match v with
  | VUndefined | VNull => false
  | VBool b => b
  | VNum n => negb (n =? 0)%Z
  | VStr s => negb (is_empty s)
  | VArr _ | VObj _ => true
  end.

(** [a || b]. *)
Definition js_or (a b : value) : value := if truthy a then a else b.

Definition nullish (v : value) : bool :=
  match v with
  | VUndefined | VNull => true
  | _ => false
  end.

Definition is_array (v : value) : bool :=
  match v with
  | VArr _ => true
  | _ => false
  end.

(** [v === s] for a string literal [s]. *)
Definition strict_eq_str (v : value) (s : string) : bool :=
  match v with
  | VStr t => String.eqb t s
  | _ => false
  end.

(** Own properties of an object, by key; a key is read at its first
    binding. *)
Fixpoint assoc (k : string) (props : list (string * value)) : value :=
  match props with
  | [] => VUndefined
  | (k', v) :: rest => if String.eqb k k' then v else assoc k rest
  end.

Fixpoint has_own (k : string) (props : list (string * value)) : bool :=
  match props with
  | [] => false
  | (k', _) :: rest => String.eqb k k' || has_own k rest
  end.

(** [obj.k = v]: an existing key keeps its place, a new one goes last. *)
Fixpoint set_own (k : string) (v : value) (props : list (string * value))
  : list (string * value) :=
  match props with
  | [] => [(k, v)]
  | (k', v') :: rest =>
      if String.eqb k k' then (k, v) :: rest else (k', v') :: set_own k v rest
  end.

Definition cannot_read (k : string) : error :=
  TypeError ("Cannot read properties of undefined or null (reading '" +++ k +++ "')").

(** [v.k] for the data properties the source reads ([length] included).
    Methods are not read through this function: see the [call_] functions. *)
Definition get_prop (v : value) (k : string) : completion value :=
  match v with
  | VUndefined | VNull => Throw (cannot_read k)
  | VObj props => Normal (assoc k props)
  | VArr items =>
      Normal (if String.eqb k "length" then VNum (Z.of_nat (List.length items))
              else VUndefined)
  | VStr s =>
      Normal (if String.eqb k "length" then VNum (Z.of_nat (String.length s))
              else VUndefined)
  | VBool _ | VNum _ => Normal VUndefined
  end.

(** [v[0]]. *)
Definition get_index0 (v : value) : completion value :=
  match v with
  | VUndefined | VNull => Throw (cannot_read "0")
  | VObj props => Normal (assoc "0" props)
  | VArr items => Normal (nth 0 items VUndefined)
  | VStr (String c _) => Normal (VStr (String c EmptyString))
  | VStr EmptyString => Normal VUndefined
  | VBool _ | VNum _ => Normal VUndefined
  end.

(** [v?.rest]: the rest of the chain is skipped on [undefined] and [null]. *)
Definition opt_chain (v : value) (rest : value -> completion value)
  : completion value :=
  if nullish v then Normal VUndefined else rest v.

(** [obj.k = v] as a statement.  Assigning to a property of a primitive is
    silently ignored in sloppy mode, which is the mode of the source. *)
Definition set_prop (obj : value) (k : string) (v : value) : completion value :=
  match obj with
  | VUndefined | VNull =>
      Throw (TypeError ("Cannot set properties of undefined or null (setting '" +++ k +++ "')"))
  | VObj props => Normal (VObj (set_own k v props))
  | other => Normal other
  end.

(** ** Strings *)

Fixpoint join (sep : string) (parts : list string) : string :=
  match parts with
  | [] => EmptyString
  | [p] => p
  | p :: rest => p +++ sep +++ join sep rest
  end.

Definition decimal (n : Z) : string := NilZero.string_of_int (Z.to_int n).

Definition upper_char (c : ascii) : ascii :=
  let n := nat_of_ascii c in
  if (97 <=? n)%nat && (n <=? 122)%nat then ascii_of_nat (n - 32) else c.

Fixpoint toUpperCase (s : string) : string :=
  match s with
  | EmptyString => EmptyString
  | String c rest => String (upper_char c) (toUpperCase rest)
  end.

Definition is_space (c : ascii) : bool :=
  let n := nat_of_ascii c in
  (n =? 32)%nat || ((9 <=? n)%nat && (n <=? 13)%nat).

Fixpoint trim_start (s : string) : string :=
  match s with
  | EmptyString => EmptyString
  | String c rest => if is_space c then trim_start rest else s
  end.

Fixpoint rev_string (s acc : string) : string :=
  match s with
  | EmptyString => acc
  | String c rest => rev_string rest (String c acc)
  end.

Definition trim (s : string) : string :=
  rev_string (trim_start (rev_string (trim_start s) EmptyString)) EmptyString.

Fixpoint prefix_of (p s : string) : bool :=
  match p, s with
  | EmptyString, _ => true
  | String a p', String b s' => Ascii.eqb a b && prefix_of p' s'
  | String _ _, EmptyString => false
  end.

(** [s.includes(p)]. *)
Fixpoint includes_str (p s : string) : bool :=
  prefix_of p s ||
  match s with
  | EmptyString => false
  | String _ rest => includes_str p rest
  end.

(** [ToString], as template literals, string concatenation and the
    platform's string conversions apply it.  An object answers
    [[object Object]] through [Object.prototype.toString]; an own
    [toString] property parsed from JSON is not callable and hides it, and
    the conversion throws. *)
Fixpoint to_js_string (v : value) : completion string :=
  match v with
  | VUndefined => Normal "undefined"
  | VNull => Normal "null"
  | VBool true => Normal "true"
  | VBool false => Normal "false"
  | VNum n => Normal (decimal n)
  | VStr s => Normal s
  | VArr items =>
      parts <~ fold_right
        (fun x acc =>
           rest <~ acc;
           s <~ (if nullish x then Normal EmptyString else to_js_string x);
           Normal (s :: rest))
        (Normal []) items;
      Normal (join "," parts)
  | VObj props =>
      if has_own "toString" props
      then Throw (TypeError "Cannot convert object to primitive value")
      else Normal "[object Object]"
  end.

(** [x.toString()] as the source calls it on a query parameter. *)
Definition call_toString (v : value) : completion string :=
  match v with
  | VUndefined | VNull => Throw (cannot_read "toString")
  | VObj props =>
      if has_own "toString" props
      then Throw (TypeError "toString is not a function")
      else Normal "[object Object]"
  | other => to_js_string other
  end.

(** [x.toUpperCase()]: only strings have the method. *)
Definition call_toUpperCase (v : value) : completion value :=
  match v with
  | VUndefined | VNull => Throw (cannot_read "toUpperCase")
  | VStr s => Normal (VStr (toUpperCase s))
  | _ => Throw (TypeError "toUpperCase is not a function")
  end.

(** [x.trim()]. *)
Definition call_trim (v : value) : completion value :=
  match v with
  | VUndefined | VNull => Throw (cannot_read "trim")
  | VStr s => Normal (VStr (trim s))
  | _ => Throw (TypeError "trim is not a function")
  end.

(** [x.includes(needle)] for a string literal [needle]: strings and arrays
    have the method; on an array it looks for an element equal to the
    needle. *)
Definition call_includes (v : value) (needle : string) : completion value :=
  match v with
  | VUndefined | VNull => Throw (cannot_read "includes")
  | VStr s => Normal (VBool (includes_str needle s))
  | VArr items => Normal (VBool (existsb (fun x => strict_eq_str x needle) items))
  | _ => Throw (TypeError "includes is not a function")
  end.

(** ** JSON.stringify *)

Definition hex_digit (n : nat) : ascii :=
  if (n <? 10)%nat then ascii_of_nat (48 + n) else ascii_of_nat (87 + n).

Definition json_escape_char (c : ascii) : string :=
  let n := nat_of_ascii c in
  if (n =? 34)%nat then backslash +++ dquote
  else if (n =? 92)%nat then backslash +++ backslash
  else if (n =? 8)%nat then backslash +++ "b"
  else if (n =? 9)%nat then backslash +++ "t"
  else if (n =? 10)%nat then backslash +++ "n"
  else if (n =? 12)%nat then backslash +++ "f"
  else if (n =? 13)%nat then backslash +++ "r"
  else if (n <? 32)%nat
       then backslash +++ "u00" +++
            String (hex_digit (n / 16)) (String (hex_digit (n mod 16)) EmptyString)
  else String c EmptyString.

Fixpoint json_escape (s : string) : string :=
  match s with
  | EmptyString => EmptyString
  | String c rest => json_escape_char c +++ json_escape rest
  end.

Definition json_quote (s : string) : string := dquote +++ json_escape s +++ dquote.

(** [JSON.stringify(v)]; [None] is the [undefined] it returns for
    [undefined].  Inside an array [undefined] is written [null], inside an
    object the property is left out. *)
Fixpoint JSON_stringify (v : value) : option string :=
  match v with
  | VUndefined => None
  | VNull => Some "null"
  | VBool true => Some "true"
  | VBool false => Some "false"
  | VNum n => Some (decimal n)
  | VStr s => Some (json_quote s)
  | VArr items =>
      Some ("[" +++ join ","
              (map (fun x => match JSON_stringify x with
                             | Some t => t
                             | None => "null"
                             end) items) +++ "]")
  | VObj props =>
      Some ("{" +++ join ","
              (flat_map (fun kv => match JSON_stringify (snd kv) with
                                   | Some t => [json_quote (fst kv) +++ ":" +++ t]
                                   | None => []
                                   end) props) +++ "}")
  end.

(** [JSON.stringify(v)] used where a string is expected. *)
Definition JSON_text (v : value) : string :=
  match JSON_stringify v with
  | Some t => t
  | None => "undefined"
  end.

(** ** URLSearchParams *)

(** [new URLSearchParams(record)]: every value of the record is converted
    to a string, [undefined] included. *)
Fixpoint URLSearchParams (init : list (string * value))
  : completion (list (string * string)) :=
  match init with
  | [] => Normal []
  | (k, v) :: rest =>
      s <~ to_js_string v;
      more <~ URLSearchParams rest;
      Normal ((k, s) :: more)
  end.

(** [params.append(k, v)]. *)
Definition params_append (params : list (string * string)) (k : string) (v : value)
  : completion (list (string * string)) :=
  s <~ to_js_string v;
  Normal (params ++ [(k, s)]).

Definition form_unreserved (c : ascii) : bool :=
  let n := nat_of_ascii c in
  ((48 <=? n)%nat && (n <=? 57)%nat) || ((65 <=? n)%nat && (n <=? 90)%nat) ||
  ((97 <=? n)%nat && (n <=? 122)%nat) ||
  (n =? 42)%nat || (n =? 45)%nat || (n =? 46)%nat || (n =? 95)%nat.

Definition hex_upper (n : nat) : ascii :=
  if (n <? 10)%nat then ascii_of_nat (48 + n) else ascii_of_nat (55 + n).

Definition form_encode_char (c : ascii) : string :=
  let n := nat_of_ascii c in
  if form_unreserved c then String c EmptyString
  else if (n =? 32)%nat then "+"
  else String "%" (String (hex_upper (n / 16)) (String (hex_upper (n mod 16)) EmptyString)).

Fixpoint form_encode (s : string) : string :=
  match s with
  | EmptyString => EmptyString
  | String c rest => form_encode_char c +++ form_encode rest
  end.

(** [params.toString()]: the application/x-www-form-urlencoded serializer. *)
Definition params_toString (params : list (string * string)) : string :=
  join "&" (map (fun kv => form_encode (fst kv) +++ "=" +++ form_encode (snd kv)) params).

(** ** The outside world and the process state *)

Inductive body : Type :=
| NoBody
| TextBody (text : string)
| FormBody (params : list (string * string)).

Record request : Type := mkRequest {
  req_url : string;
  req_method : string;
  req_headers : list (string * string);
  req_body : body
}.

(** What [await fetch(...)] gives: a rejection, or a response with its
    status and what [await response.json()] will give. *)
Inductive fetch_outcome : Type :=
| FetchFailed (e : error)
| FetchResponse (status : Z) (json : completion value).

Record fetch_response : Type := mkResponse {
  resp_status : Z;
  resp_json : completion value
}.

Definition resp_ok (r : fetch_response) : bool :=
  (200 <=? resp_status r)%Z && (resp_status r <=? 299)%Z.

(** A subscriber is a response object, known by its identity. *)
Definition client : Type := nat.

Record Platform : Type := mkPlatform {
  (** the answer to the fetch issued after [n] earlier ones *)
  net : nat -> request -> fetch_outcome;
  (** whether [client.write(data)] succeeds, and what it throws otherwise *)
  chan : client -> string -> bool;
  chan_error : client -> error;
  (** [ToNumber(s) > 0] on strings *)
  string_gt_zero : string -> bool
}.

(** The lines of the console the development refers to: every
    [console.error], and the count logged by the conversation filter.  The
    other [console.log] progress lines are kept only for the exceptions
    their template literals can raise. *)
Inductive console_line : Type :=
| ConsoleError (label : string) (e : error)
| ConsoleDiscarded (discarded after : Z).

Record World : Type := mkWorld {
  calls : list request;
  console : list console_line;
  sseClients : list client;
  wire : list (client * string * bool)
}.

Definition M (A : Type) : Type := World -> completion A * World.

Definition ret {A : Type} (a : A) : M A := fun w => (Normal a, w).

Definition throw {A : Type} (e : error) : M A := fun w => (Throw e, w).

Definition lift {A : Type} (c : completion A) : M A := fun w => (c, w).

Definition bind {A B : Type} (m : M A) (f : A -> M B) : M B :=
  fun w =>
    match m w with
    | (Normal a, w') => f a w'
    | (Throw e, w') => (Throw e, w')
    end.

(** [try { m } catch (error) { h error }]. *)
Definition try_catch {A : Type} (m : M A) (h : error -> M A) : M A :=
  fun w =>
    match m w with
    | (Normal a, w') => (Normal a, w')
    | (Throw e, w') => h e w'
    end.

Notation "x <- m ;; k" := (bind m (fun x => k))
  (at level 61, m at next level, right associativity).
Notation "m ;;; k" := (bind m (fun _ => k))
  (at level 61, right associativity).

Definition log_error (label : string) (e : error) (w : World) : World :=
  mkWorld (calls w) (console w ++ [ConsoleError label e]) (sseClients w) (wire w).

(** [console.error(label, e)]. *)
Definition console_error (label : string) (e : error) : M unit :=
  fun w => (Normal tt, log_error label e w).

Definition console_discarded (discarded after : Z) : M unit :=
  fun w => (Normal tt,
            mkWorld (calls w) (console w ++ [ConsoleDiscarded discarded after])
                    (sseClients w) (wire w)).

Definition fetch (P : Platform) (r : request) : M fetch_response :=
  fun w =>
    let w' := mkWorld (calls w ++ [r]) (console w) (sseClients w) (wire w) in
    match net P (List.length (calls w)) r with
    | FetchFailed e => (Throw e, w')
    | FetchResponse st js => (Normal (mkResponse st js), w')
    end.

(** [await response.json()]. *)
Definition response_json (r : fetch_response) : M value := lift (resp_json r).

(** [v > 0]. *)
Definition gt_zero (P : Platform) (v : value) : completion bool :=
  match v with
  | VUndefined | VNull => Normal false
  | VBool b => Normal b
  | VNum n => Normal (0 <? n)%Z
  | VStr s => Normal (string_gt_zero P s)
  | VArr _ | VObj _ => s <~ to_js_string v; Normal (string_gt_zero P s)
  end.

(** ** Configuration *)

Record Env : Type := mkEnv {
  env_OPENPHONE_API : option string;
  env_OPENPHONE_API_KEY : option string;
  env_OPENPHONE_FROM : option string;
  env_OPENPHONE_USER_ID : option string;
  env_TRANSLATE_PROVIDER : option string;
  env_DEEPL_API_KEY : option string;
  env_LIBRE_URL : option string;
  env_LIBRE_API_KEY : option string;
  env_OPENAI_API_KEY : option string
}.

(** [process.env.X] as a value. *)
Definition env_value (o : option string) : value :=
  match o with
  | Some s => VStr s
  | None => VUndefined
  end.

(** [process.env.X || fallback]. *)
Definition env_or (o : option string) (fallback : string) : string :=
  match o with
  | Some s => if is_empty s then fallback else s
  | None => fallback
  end.

(** [process.env.X] inside a template literal or a header. *)
Definition env_text (o : option string) : string :=
  match o with
  | Some s => s
  | None => "undefined"
  end.

Definition OPENPHONE_API (env : Env) : string :=
  env_or (env_OPENPHONE_API env) "https://api.openphone.com/v1".
Definition OPENPHONE_API_KEY (env : Env) : option string := env_OPENPHONE_API_KEY env.
Definition OPENPHONE_FROM (env : Env) : option string := env_OPENPHONE_FROM env.
Definition OPENPHONE_USER_ID (env : Env) : option string := env_OPENPHONE_USER_ID env.
Definition TRANSLATE_PROVIDER (env : Env) : string :=
  env_or (env_TRANSLATE_PROVIDER env) "LIBRE".
Definition DEEPL_API_KEY (env : Env) : option string := env_DEEPL_API_KEY env.
Definition LIBRE_URL (env : Env) : string :=
  env_or (env_LIBRE_URL env) "https://libretranslate.com".
Definition LIBRE_API_KEY (env : Env) : option string := env_LIBRE_API_KEY env.
Definition OPENAI_API_KEY (env : Env) : option string := env_OPENAI_API_KEY env.

Definition authHeader (env : Env) : list (string * string) :=
  [("Authorization", env_text (OPENPHONE_API_KEY env))].

(** ** Translation module *)

(** A parameter with a default: [f(x = d)]. *)
Definition default_param (v d : value) : value :=
  match v with
  | VUndefined => d
  | _ => v
  end.

Definition env_set (o : option string) : bool := truthy (env_value o).

Definition translateWithDeepL (P : Platform) (env : Env)
    (text targetLang sourceLang : value) : M value :=
  if negb (env_set (DEEPL_API_KEY env)) then throw (Error "DEEPL_API_KEY not configured")
  else
    target_lang <- lift (call_toUpperCase targetLang) ;;
    source_lang <- lift (if strict_eq_str sourceLang "auto" then Normal VUndefined
                         else call_toUpperCase sourceLang) ;;
    params <- lift (URLSearchParams [("text", text);
                                     ("target_lang", target_lang);
                                     ("source_lang", source_lang)]) ;;
    response <- fetch P
      (mkRequest "https://api-free.deepl.com/v2/translate" "POST"
         [("Authorization", "DeepL-Auth-Key " +++ env_text (DEEPL_API_KEY env));
          ("Content-Type", "application/x-www-form-urlencoded")]
         (FormBody params)) ;;
    data <- response_json response ;;
    t <- lift (tr <~ get_prop data "translations";
               opt_chain tr (fun tr =>
                 first <~ get_index0 tr;
                 opt_chain first (fun first => get_prop first "text"))) ;;
    ret (js_or t text).

Definition translateWithLibre (P : Platform) (env : Env)
    (text targetLang sourceLang : value) : M value :=
  let url := LIBRE_URL env +++ "/translate" in
  let headers :=
    [("Content-Type", "application/json")] ++
    (if env_set (LIBRE_API_KEY env)
     then [("Authorization", "Bearer " +++ env_text (LIBRE_API_KEY env))]
     else []) in
  response <- fetch P
    (mkRequest url "POST" headers
       (TextBody (JSON_text (VObj
          [("q", text);
           ("source", if strict_eq_str sourceLang "auto" then VStr "auto" else sourceLang);
           ("target", targetLang)])))) ;;
  data <- response_json response ;;
  t <- lift (get_prop data "translatedText") ;;
  ret (js_or t text).

Definition translateWithGoogle (text targetLang sourceLang : value) : M value :=
  throw (Error "Google Translate not implemented in this MVP").

Definition translateWithOpenAI (P : Platform) (env : Env)
    (text targetLang prompt : value) : M value :=
  if negb (env_set (OPENAI_API_KEY env)) then throw (Error "OPENAI_API_KEY not configured")
  else
    lang <- lift (to_js_string targetLang) ;;
    let systemPrompt :=
      "Você é um tradutor cuidadoso. Traduza para " +++ lang +++
      ". Preserve significado e tom. Não traduza trechos em blocos de código Markdown. Responda somente com a tradução." in
    txt <- lift (to_js_string text) ;;
    lead <- lift (to_js_string (js_or prompt (VStr EmptyString))) ;;
    let userPrompt :=
      lead +++ nl +++ nl +++ "Idioma destino: " +++ lang +++ nl +++ "Texto:" +++ nl +++ txt in
    response <- fetch P
      (mkRequest "https://api.openai.com/v1/chat/completions" "POST"
         [("Authorization", "Bearer " +++ env_text (OPENAI_API_KEY env));
          ("Content-Type", "application/json")]
         (TextBody (JSON_text (VObj
            [("model", VStr "gpt-4o-mini");
             ("temperature", VNum 0);
             ("messages", VArr
                [VObj [("role", VStr "system"); ("content", VStr systemPrompt)];
                 VObj [("role", VStr "user"); ("content", VStr userPrompt)]])])))) ;;
    data <- response_json response ;;
    if negb (resp_ok response) then
      detail <- lift (opt_chain data (fun data =>
                  err <~ get_prop data "error";
                  opt_chain err (fun err => get_prop err "message"))) ;;
      message <- lift (to_js_string
                   (js_or detail (VStr ("OpenAI error: " +++ decimal (resp_status response))))) ;;
      throw (Error message)
    else
      translated <- lift (opt_chain data (fun data =>
                  choices <~ get_prop data "choices";
                  opt_chain choices (fun choices =>
                    first <~ get_index0 choices;
                    opt_chain first (fun first =>
                      message <~ get_prop first "message";
                      opt_chain message (fun message =>
                        content <~ get_prop message "content";
                        opt_chain content call_trim))))) ;;
      ret (js_or translated text).

(** The [switch (TRANSLATE_PROVIDER)] of [translateText]. *)
Definition translateText_dispatch (P : Platform) (env : Env)
    (text targetLang sourceLang prompt : value) : M value :=
  let provider := TRANSLATE_PROVIDER env in
  if String.eqb provider "DEEPL" then translateWithDeepL P env text targetLang sourceLang
  else if String.eqb provider "GOOGLE" then translateWithGoogle text targetLang sourceLang
  else if String.eqb provider "OPENAI" then translateWithOpenAI P env text targetLang prompt
  else translateWithLibre P env text targetLang sourceLang.

Definition translateText (P : Platform) (env : Env)
    (text targetLang sourceLang prompt : value) : M value :=
  let sourceLang := default_param sourceLang (VStr "auto") in
  let prompt := default_param prompt (VStr EmptyString) in
  if negb (truthy text) || negb (truthy targetLang) then ret text
  else
    try_catch
      (translateText_dispatch P env text targetLang sourceLang prompt)
      (fun error => console_error "Translation error:" error ;;; ret text).

(** ** Express responses *)

Record http_response : Type := json_response {
  http_status : Z;
  http_body : value
}.

(** ** POST /api/messages *)

(** The prompt both branches of the handler pass to the translator. *)
Definition send_prompt (targetLang : value) : completion value :=
  lang <~ to_js_string targetLang;
  Normal (VStr ("Traduza para " +++ lang +++
    ", preserve sentido e tom, não traduza blocos de código Markdown, responda somente com a tradução.")).

Definition strict_failure (e : error) : http_response :=
  json_response 500
    (VObj [("error", VStr "Falha na tradução");
           ("provider", VStr "openai");
           ("details", VStr (err_message e))]).

Definition send_payload (env : Env) (translatedText fromNumber to userId : value) : value :=
  VObj ([("content", translatedText);
         ("from", fromNumber);
         ("to", if is_array to then to else VArr [to])] ++
        (if truthy (js_or (env_value (OPENPHONE_USER_ID env)) userId)
         then [("userId", js_or userId (env_value (OPENPHONE_USER_ID env)))]
         else [])).

Definition send_request (env : Env) (payload : value) : request :=
  mkRequest (OPENPHONE_API env +++ "/messages") "POST"
    (authHeader env ++ [("Content-Type", "application/json")])
    (TextBody (JSON_text payload)).

(** The translation block of the handler ("Translate message if target
    language is specified"): either the text to send, or the response the
    strict branch returns at once. *)
Definition translate_for_send (P : Platform) (env : Env)
    (text targetLang sourceLang strict : value) : M (http_response + value) :=
  if truthy targetLang then
    if truthy strict then
      try_catch
        (prompt <- lift (send_prompt targetLang) ;;
         t <- translateWithOpenAI P env text targetLang prompt ;;
         ret (inr t))
        (fun error =>
           console_error "Strict translation failed:" error ;;;
           ret (inl (strict_failure error)))
    else
      prompt <- lift (send_prompt targetLang) ;;
      t <- translateText P env text targetLang sourceLang prompt ;;
      ret (inr t)
  else ret (inr text).

(** The end of the handler: the call to the provider and the relay of its
    answer. *)
Definition send_upstream (P : Platform) (env : Env)
    (translatedText fromNumber to userId : value) : M http_response :=
  let payload := send_payload env translatedText fromNumber to userId in
  response <- fetch P (send_request env payload) ;;
  data <- response_json response ;;
  ret (json_response (resp_status response) data).

(** The handler of the outer [catch] of POST /api/messages. *)
Definition send_failed (error : error) : M http_response :=
  console_error "Error sending message:" error ;;;
  ret (json_response 500 (VObj [("error", VStr "Falha ao enviar mensagem")])).

Definition post_messages (P : Platform) (env : Env) (body : value) : M http_response :=
  try_catch
    (text <- lift (get_prop body "text") ;;
     to <- lift (get_prop body "to") ;;
     from <- lift (get_prop body "from") ;;
     targetLang <- lift (get_prop body "targetLang") ;;
     sourceLang <- lift (get_prop body "sourceLang") ;;
     userId <- lift (get_prop body "userId") ;;
     strict <- lift (get_prop body "strict") ;;
     if negb (truthy text) || negb (truthy to) then
       ret (json_response 400 (VObj [("error", VStr "text e to são obrigatórios")]))
     else
       let fromNumber := js_or from (env_value (OPENPHONE_FROM env)) in
       if negb (truthy fromNumber) then
         ret (json_response 400
                (VObj [("error", VStr "from ausente. Configure OPENPHONE_FROM ou envie no corpo.")]))
       else
         translation <- translate_for_send P env text targetLang sourceLang strict ;;
         match translation with
         | inl early => ret early
         | inr translatedText => send_upstream P env translatedText fromNumber to userId
         end)
    send_failed.

(** ** GET /api/conversations *)

(** The callback of the filter:
    [Array.isArray(c.participants) && c.participants.length === 1]. *)
Definition one_to_one (c : value) : completion bool :=
  participants <~ get_prop c "participants";
  if is_array participants then
    len <~ get_prop participants "length";
    Normal (match len with
            | VNum n => (n =? 1)%Z
            | _ => false
            end)
  else Normal false.

(** [items.filter(f)] for a callback that can throw. *)
Fixpoint array_filter (f : value -> completion bool) (items : list value)
  : completion (list value) :=
  match items with
  | [] => Normal []
  | x :: rest =>
      keep <~ f x;
      more <~ array_filter f rest;
      Normal (if keep then x :: more else more)
  end.

(** [participants.forEach(p => queryParams.append('participants', p))]. *)
Definition forEach_append (participants : value) (params : list (string * string))
  : completion (list (string * string)) :=
  match participants with
  | VUndefined | VNull => Throw (cannot_read "forEach")
  | VArr items =>
      fold_left (fun acc p => ps <~ acc; params_append ps "participants" p)
                items (Normal params)
  | _ => Throw (TypeError "forEach is not a function")
  end.

(** The [try] block of the loop over the retained conversations: the
    conversation comes back with its [lastMessage] set when the look-up
    gave one, and as it was otherwise. *)
Definition last_message_lookup (P : Platform) (env : Env) (conversation : value)
  : M value :=
  phoneNumberId <- lift (get_prop conversation "phoneNumberId") ;;
  queryParams <- lift (URLSearchParams [("phoneNumberId", phoneNumberId);
                                        ("maxResults", VStr "1")]) ;;
  participants <- lift (get_prop conversation "participants") ;;
  queryParams <- lift (forEach_append participants queryParams) ;;
  let messageUrl := OPENPHONE_API env +++ "/messages?" +++ params_toString queryParams in
  id <- lift (get_prop conversation "id") ;;
  _ <- lift (to_js_string id) ;;
  messagesResponse <- fetch P (mkRequest messageUrl "GET" (authHeader env) NoBody) ;;
  if resp_ok messagesResponse then
    messagesData <- response_json messagesResponse ;;
    data <- lift (get_prop messagesData "data") ;;
    nonempty <- lift (if truthy data
                      then len <~ get_prop data "length"; gt_zero P len
                      else Normal false) ;;
    if (nonempty : bool) then
      first <- lift (get_index0 data) ;;
      lift (set_prop conversation "lastMessage" first)
    else ret conversation
  else ret conversation.

(** The body of the loop: the look-up, and the [catch] that logs its
    failure and leaves the conversation as it was. *)
Definition fetch_last_message (P : Platform) (env : Env) (conversation : value)
  : M value :=
  try_catch
    (last_message_lookup P env conversation)
    (fun error =>
       id <- lift (get_prop conversation "id") ;;
       label <- lift (to_js_string id) ;;
       console_error ("❌ Error fetching last message for conversation " +++ label +++ ":")
                     error ;;;
       ret conversation).

(** [for (let conversation of items) { ... }], the conversations being
    updated in place. *)
Fixpoint for_each_conversation (P : Platform) (env : Env) (items : list value)
  : M (list value) :=
  match items with
  | [] => ret []
  | conversation :: rest =>
      conversation' <- fetch_last_message P env conversation ;;
      rest' <- for_each_conversation P env rest ;;
      ret (conversation' :: rest')
  end.

(** The request the handler sends upstream for a query string. *)
Definition conversations_request (env : Env) (query : value) : completion request :=
  pageToken <~ get_prop query "pageToken";
  maxResults <~ get_prop query "maxResults";
  size <~ call_toString (default_param maxResults (VNum 40));
  queryParams <~ (if truthy pageToken
                  then params_append [("maxResults", size)] "pageToken" pageToken
                  else Normal [("maxResults", size)]);
  Normal (mkRequest (OPENPHONE_API env +++ "/conversations?" +++ params_toString queryParams)
                    "GET" (authHeader env) NoBody).

Definition get_conversations (P : Platform) (env : Env) (query : value)
  : M http_response :=
  try_catch
    (apiRequest <- lift (conversations_request env query) ;;
     response <- fetch P apiRequest ;;
     data <- response_json response ;;
     data <- (if truthy data then
                page <- lift (get_prop data "data") ;;
                match page with
                | VArr items =>
                    let before := Z.of_nat (List.length items) in
                    kept <- lift (array_filter one_to_one items) ;;
                    data' <- lift (set_prop data "data" (VArr kept)) ;;
                    let after := Z.of_nat (List.length kept) in
                    let discarded := (before - after)%Z in
                    console_discarded discarded after ;;;
                    ret data'
                | _ => ret data
                end
              else ret data) ;;
     page <- lift (get_prop data "data") ;;
     data <- (match page with
              | VArr items =>
                  items' <- for_each_conversation P env items ;;
                  lift (set_prop data "data" (VArr items'))
              | _ => ret data
              end) ;;
     ret (json_response (resp_status response) data))
    (fun error =>
       console_error "Error fetching conversations:" error ;;;
       ret (json_response 500 (VObj [("error", VStr "Falha ao carregar conversas")]))).

(** ** Server-sent events *)

Definition registered (c : client) (w : World) : bool :=
  existsb (Nat.eqb c) (sseClients w).

(** [sseClients.add(res)]. *)
Definition sse_add (c : client) : M unit :=
  fun w =>
    (Normal tt,
     if registered c w then w
     else mkWorld (calls w) (console w) (sseClients w ++ [c]) (wire w)).

(** [sseClients.delete(res)]. *)
Definition sse_delete (c : client) : M unit :=
  fun w =>
    (Normal tt,
     mkWorld (calls w) (console w)
             (filter (fun c' => negb (Nat.eqb c c')) (sseClients w)) (wire w)).

(** [client.write(data)]: the attempt is recorded with its outcome. *)
Definition client_write (P : Platform) (c : client) (data : string) : M unit :=
  fun w =>
    let ok := chan P c data in
    let w' := mkWorld (calls w) (console w) (sseClients w) (wire w ++ [(c, data, ok)]) in
    if ok then (Normal tt, w') else (Throw (chan_error P c), w').

(** [for (const client of sseClients) { try ... catch ... }]: the iteration
    of a [Set] is live, so an entry is visited only if it is still in the
    set when its turn comes. *)
Fixpoint broadcast_loop (P : Platform) (pending : list client) (data : string)
  : M unit :=
  match pending with
  | [] => ret tt
  | c :: rest =>
      fun w =>
        if registered c w then
          (try_catch (client_write P c data) (fun _ => sse_delete c) ;;;
           broadcast_loop P rest data) w
        else broadcast_loop P rest data w
  end.

(** The frame written for an event. *)
Definition sse_frame (type : string) (payload : value) : string :=
  "event: " +++ type +++ nl +++ "data: " +++ JSON_text payload +++ nl +++ nl.

Definition broadcast (P : Platform) (type : string) (payload : value) : M unit :=
  let data := sse_frame type payload in
  fun w => broadcast_loop P (sseClients w) data w.

(** GET /api/sse: the first write opens the stream, then the response is
    registered. *)
Definition sse_connect (P : Platform) (c : client) : M unit :=
  client_write P c nl ;;;
  sse_add c.



(** ** POST /webhooks/openphone *)

Definition webhook_openphone (P : Platform) (event : value) : M http_response :=
  try_catch
    (isMessage <- lift (opt_chain event (fun event =>
                    type <~ get_prop event "type";
                    opt_chain type (fun type => call_includes type "message"))) ;;
     (if truthy isMessage then broadcast P "openphone" event else ret tt) ;;;
     ret (json_response 200 (VObj [("ok", VBool true)])))
    (fun error =>
       console_error "Webhook error:" error ;;;
       ret (json_response 500 (VObj [("ok", VBool false)]))).

(** ** Observations on a run *)

(** What a run from [w] to [w'] added to the log of upstream calls and to
    the console. *)
Definition calls_since (w w' : World) : list request :=
  skipn (List.length (calls w)) (calls w').

Definition console_since (w w' : World) : list console_line :=
  skipn (List.length (console w)) (console w').

(** What a run of a translation back-end can change: nothing but the log of
    upstream calls, by at most one call to [url]. *)
Definition one_call_to (url : string) (w w' : World) : Prop :=
  console w' = console w /\ sseClients w' = sseClients w /\ wire w' = wire w /\
  (calls w' = calls w \/
   exists r, calls w' = calls w ++ [r] /\ req_url r = url).

(** [process.env] with another provider selector. *)
Definition with_provider (env : Env) (selector : option string) : Env :=
  mkEnv (env_OPENPHONE_API env) (env_OPENPHONE_API_KEY env) (env_OPENPHONE_FROM env)
        (env_OPENPHONE_USER_ID env) selector (env_DEEPL_API_KEY env)
        (env_LIBRE_URL env) (env_LIBRE_API_KEY env) (env_OPENAI_API_KEY env).

(** ** The specification's vocabulary *)

(** [event?.type], as a value. *)
Definition type_of_event (event : value) : value :=
  match event with
  | VObj props => assoc "type" props
  | _ => VUndefined
  end.

(** The event types on which [includes] can be called or is skipped: a
    type that is missing, [null], a string or an array. *)
Definition plain_type (type : value) : bool :=
  match type with
  | VUndefined | VNull | VStr _ | VArr _ => true
  | _ => false
  end.

(** An event whose type denotes a message event: a string that contains
    [message], or an array that has [message] among its elements. *)
Definition denotes_message (event : value) : bool :=
  match type_of_event event with
  | VStr s => includes_str "message" s
  | VArr items => existsb (fun x => strict_eq_str x "message") items
  | _ => false
  end.

(** A one-to-one conversation: its [participants] field is an array of
    length 1. *)
Definition single_participant (c : value) : bool :=
  match c with
  | VObj props =>
      match assoc "participants" props with
      | VArr [_] => true
      | _ => false
      end
  | _ => false
  end.

(** An entry of a conversations page the handler can process: it is not
    [null] and its [id] can be written into a log line. *)
Definition conversation_entry (c : value) : Prop :=
  nullish c = false /\
  exists label, (id <~ get_prop c "id"; to_js_string id) = Normal label.

(** A conversation whose [id] can be written into a log line. *)
Definition printable_id (c : value) : Prop :=
  exists label, (id <~ get_prop c "id"; to_js_string id) = Normal label.

(** The same conversation, possibly with its last message attached. *)
Definition same_conversation (c c' : value) : Prop :=
  c' = c \/ exists m, set_prop c "lastMessage" m = Normal c'.

(** ** Sample configurations and platforms *)

Definition fresh : World := mkWorld [] [] [] [].

Definition env_unset : Env := mkEnv None None None None None None None None None.

Definition env_sender : Env :=
  mkEnv None (Some "op-key") (Some "+15550000000") None None None None None None.

Definition env_openai : Env :=
  mkEnv None (Some "op-key") (Some "+15550000000") None None None None None (Some "sk-test").

Definition env_deepl : Env :=
  mkEnv None (Some "op-key") (Some "+15550000000") None (Some "DEEPL") (Some "dl-key")
        None None None.

(** No network. *)
Definition offline : Platform :=
  mkPlatform (fun _ _ => FetchFailed (TypeError "fetch failed"))
             (fun _ _ => true) (fun _ => Error "write after end") (fun _ => false).

(** Every upstream call is answered with [status] and the JSON [json]. *)
Definition answering (status : Z) (json : value) : Platform :=
  mkPlatform (fun _ _ => FetchResponse status (Normal json))
             (fun _ _ => true) (fun _ => Error "write after end") (fun _ => false).

(** Subscriber 2 has gone away; the others are alive. *)
Definition one_dead : Platform :=
  mkPlatform (fun _ _ => FetchFailed (TypeError "fetch failed"))
             (fun c _ => negb (Nat.eqb c 2)) (fun _ => Error "write after end")
             (fun _ => false).

Definition three_clients : World := mkWorld [] [] [1; 2; 3]%nat [].

(** Later on subscriber 3 has gone away as well, and subscriber 2 would
    answer again. *)
Definition last_dead : Platform :=
  mkPlatform (fun _ _ => FetchFailed (TypeError "fetch failed"))
             (fun c _ => negb (Nat.eqb c 3)) (fun _ => Error "write after end")
             (fun _ => false).

(** Every upstream call is answered with [status] and a body that is not
    JSON. *)
Definition malformed (status : Z) : Platform :=
  mkPlatform (fun _ _ => FetchResponse status (Throw (JsError "SyntaxError" "Unexpected token")))
             (fun _ _ => true) (fun _ => Error "write after end") (fun _ => false).

Definition env_provider_openai : Env := with_provider env_openai (Some "OPENAI").

Definition env_deepl_no_key : Env := with_provider env_sender (Some "DEEPL").

(** A strict send request, and an OpenAI endpoint that answers 500. *)
Definition strict_body : list (string * value) :=
  [("text", VStr "hi"); ("to", VStr "+15551234567");
   ("targetLang", VStr "pt"); ("strict", VBool true)].

Definition plain_body : list (string * value) :=
  [("text", VStr "hi"); ("to", VStr "+15551234567")].

Definition openai_down : Platform :=
  answering 500 (VObj [("error", VObj [("message", VStr "boom")])]).

(** A page with a one-to-one conversation and a group conversation. *)
Definition sample_items : list value :=
  [VObj [("id", VStr "CN1"); ("phoneNumberId", VStr "PN1");
         ("participants", VArr [VStr "+15551234567"])];
   VObj [("id", VStr "CN2"); ("phoneNumberId", VStr "PN1");
         ("participants", VArr [VStr "+15551234567"; VStr "+15557654321"])]].

Definition sample_page : list (string * value) :=
  [("data", VArr sample_items); ("nextPageToken", VNull)].

(** A page that also holds a group conversation whose [id] cannot be
    converted to a string, and an entry that is not an object. *)
Definition mixed_items : list value :=
  [VObj [("id", VObj [("toString", VNum 1)]); ("phoneNumberId", VStr "PN1");
         ("participants", VArr [VStr "+15551234567"; VStr "+15557654321"])];
   VObj [("id", VStr "CN1"); ("phoneNumberId", VStr "PN1");
         ("participants", VArr [VStr "+15551234567"])];
   VStr "CN3"].

Definition mixed_page : list (string * value) :=
  [("data", VArr mixed_items)].

(** ** GET /api/messages *)

Definition messages_failed (error : error) : M http_response :=
  console_error "Error fetching messages:" error ;;;
  ret (json_response 500 (VObj [("error", VStr "Falha ao carregar mensagens")])).

Definition get_messages (P : Platform) (env : Env) (query : value) : M http_response :=
  try_catch
    (phoneNumberId <- lift (get_prop query "phoneNumberId") ;;
     participants <- lift (get_prop query "participants") ;;
     pageToken <- lift (get_prop query "pageToken") ;;
     limit <- lift (get_prop query "limit") ;;
     let limit := default_param limit (VNum 50) in
     if negb (truthy phoneNumberId) || negb (truthy participants) then
       ret (json_response 400
              (VObj [("error", VStr "phoneNumberId e participants são obrigatórios")]))
     else
       let participantsArray :=
         if is_array participants then participants else VArr [participants] in
       size <- lift (to_js_string limit) ;;
       queryParams <- lift (URLSearchParams [("phoneNumberId", phoneNumberId);
                                             ("maxResults", VStr size)]) ;;
       queryParams <- lift (if truthy pageToken
                            then params_append queryParams "pageToken" pageToken
                            else Normal queryParams) ;;
       queryParams <- lift (forEach_append participantsArray queryParams) ;;
       response <- fetch P
         (mkRequest (OPENPHONE_API env +++ "/messages?" +++ params_toString queryParams)
                    "GET" (authHeader env) NoBody) ;;
       data <- response_json response ;;
       ret (json_response (resp_status response) data))
    messages_failed.

(** ** POST /api/translate *)

Definition translate_failed (error : error) : M http_response :=
  console_error "Error translating message:" error ;;;
  ret (json_response 500
         (VObj [("error", VStr "Falha na tradução");
                ("provider", VStr "openai");
                ("details", VStr (err_message error))])).

Definition post_translate (P : Platform) (env : Env) (body : value) : M http_response :=
  try_catch
    (let fields := js_or body (VObj []) in
     text <- lift (get_prop fields "text") ;;
     targetLang <- lift (get_prop fields "targetLang") ;;
     prompt <- lift (get_prop fields "prompt") ;;
     if negb (truthy text) || negb (truthy targetLang) then
       ret (json_response 400 (VObj [("error", VStr "text e targetLang são obrigatórios")]))
     else if negb (env_set (OPENAI_API_KEY env)) then
       ret (json_response 500
              (VObj [("error", VStr "OPENAI_API_KEY não configurado");
                     ("provider", VStr "openai")]))
     else
       translatedText <- translateWithOpenAI P env text targetLang prompt ;;
       ret (json_response 200
              (VObj [("translatedText", translatedText);
                     ("provider", VStr "openai");
                     ("model", VStr "gpt-4o-mini")])))
    translate_failed.

(** What a run added to the log of writes to subscribers. *)
Definition wire_since (w w' : World) : list (client * string * bool) :=
  skipn (List.length (wire w)) (wire w').

(** ** Shapes of upstream requests *)

(** A look-up of a last message: a GET, with the API key, under
    [OPENPHONE_API/messages?]. *)
Definition lookup_shaped (env : Env) (r : request) : Prop :=
  req_method r = "GET" /\ req_headers r = authHeader env /\ req_body r = NoBody /\
  prefix_of (OPENPHONE_API env +++ "/messages?") (req_url r) = true.

(** The look-up for a conversation with one participant. *)
Definition lookup_request (env : Env) (phoneNumberId participant : string) : request :=
  mkRequest
    (OPENPHONE_API env +++ "/messages?" +++
     params_toString [("phoneNumberId", phoneNumberId); ("maxResults", "1");
                      ("participants", participant)])
    "GET" (authHeader env) NoBody.

(** The process state after one more upstream call. *)
Definition after_call (r : request) (w : World) : World :=
  mkWorld (calls w ++ [r]) (console w) (sseClients w) (wire w).

(** A GET with the API key and no body. *)
Definition listing_shaped (env : Env) (r : request) : Prop :=
  req_method r = "GET" /\ req_headers r = authHeader env /\ req_body r = NoBody.

(** ** The reporting scripts *)

(** What the scripts use of the platform's [URL] class: [new URL(base)], which
    can throw, and the [href] of the URL after its [searchParams] were set. *)
Record UrlApi : Type := mkUrlApi {
  url_parse : string -> completion unit;
  url_href : string -> list (string * string) -> string
}.

(** [fetchPage] of check_conversations.js; check_number_conversation.js has
    the same function under the name [fetchConversationsPage]. *)
Definition fetchPage (U : UrlApi) (P : Platform) (env : Env) (pageToken maxResults : value)
  : M value :=
  let maxResults := default_param maxResults (VNum 50) in
  let base := OPENPHONE_API env +++ "/conversations" in
  _ <- lift (url_parse U base) ;;
  size <- lift (to_js_string maxResults) ;;
  sets <- lift (if truthy pageToken
                then token <~ to_js_string pageToken;
                     Normal [("maxResults", size); ("pageToken", token)]
                else Normal [("maxResults", size)]) ;;
  res <- fetch P (mkRequest (url_href U base sets) "GET" (authHeader env) NoBody) ;;
  data <- response_json res ;;
  if negb (resp_ok res) then
    throw (Error ("Erro " +++ decimal (resp_status res) +++ ": " +++ JSON_text data))
  else ret data.

(** The [while (pages < limitPages)] loop of [fetchAllConversations], by the
    number of pages it may still fetch. *)
Fixpoint fetch_pages (U : UrlApi) (P : Platform) (env : Env) (pageSize : value)
    (remaining : nat) (token : value) (all : list value) : M (list value) :=
  match remaining with
  | O => ret all
  | S later =>
      data <- fetchPage U P env token pageSize ;;
      page <- lift (get_prop data "data") ;;
      let arr := match page with
                 | VArr items => items
                 | _ => []
                 end in
      next <- lift (get_prop data "nextPageToken") ;;
      if truthy next then fetch_pages U P env pageSize later next (all ++ arr)
      else ret (all ++ arr)
  end.

(** [fetchAllConversations], the same in both scripts.  [limitPages] is the
    integer the caller passes, [None] standing for an argument left out. *)
Definition fetchAllConversations (U : UrlApi) (P : Platform) (env : Env)
    (limitPages : option Z) (pageSize : value) : M (list value) :=
  let limitPages := match limitPages with
                    | Some n => n
                    | None => 10%Z
                    end in
  let pageSize := default_param pageSize (VNum 50) in
  fetch_pages U P env pageSize (Z.to_nat limitPages) VUndefined [].

(** The number of pages [fetchAllConversations] may fetch at most. *)
Definition page_limit (limitPages : option Z) : Z :=
  match limitPages with
  | Some n => Z.max 0 n
  | None => 10%Z
  end.

(** The request [fetchPage] issues when [maxResults] converts to [size] and
    the page token, if there is one, to [token]. *)
Definition page_request (U : UrlApi) (env : Env) (size : string) (token : option string)
  : request :=
  mkRequest
    (url_href U (OPENPHONE_API env +++ "/conversations")
       (match token with
        | Some t => [("maxResults", size); ("pageToken", t)]
        | None => [("maxResults", size)]
        end))
    "GET" (authHeader env) NoBody.

(** The token the request for page [k] carries: none for the first page,
    then the one the page before announced. *)
Definition token_before (token : nat -> string) (k : nat) : option string :=
  match k with
  | O => None
  | S j => Some (token j)
  end.

(** What a [pageToken] argument puts into the request: nothing when it is
    falsy, its text otherwise. *)
Definition carries (pageToken : value) (token : option string) : Prop :=
  match token with
  | None => truthy pageToken = false
  | Some t => truthy pageToken = true /\ to_js_string pageToken = Normal t
  end.

(** [typeof v]. *)
Definition js_typeof (v : value) : string :=
  match v with
  | VUndefined => "undefined"
  | VNull => "object"
  | VBool _ => "boolean"
  | VNum _ => "number"
  | VStr _ => "string"
  | VArr _ | VObj _ => "object"
  end.

Record typeStats : Type := mkTypeStats {
  stringParticipants : nat;
  objectParticipants : nat;
  mixedParticipants : nat
}.

(** What [classifyConversations] returns. *)
Record classification : Type := mkClassification {
  withContacts : list value;
  withoutContacts : list value;
  stats : typeStats;
  groups : list value;
  solo : list value
}.

(** The body of the loop of [classifyConversations]. *)
Definition classify_one (acc : classification) (c : value) : completion classification :=
  contacts <~ get_prop c "participantContacts";
  hasContacts <~ (if is_array contacts
                  then len <~ get_prop contacts "length";
                       Normal (match len with
                               | VNum n => (0 <? n)%Z
                               | _ => false
                               end)
                  else Normal false);
  participants <~ get_prop c "participants";
  let types := match participants with
               | VArr items => map js_typeof items
               | _ => []
               end in
  let hasObj := existsb (String.eqb "object") types in
  let hasStr := existsb (String.eqb "string") types in
  let s := stats acc in
  let s' :=
    if hasObj && hasStr
    then mkTypeStats (stringParticipants s) (objectParticipants s) (S (mixedParticipants s))
    else if hasObj
    then mkTypeStats (stringParticipants s) (S (objectParticipants s)) (mixedParticipants s)
    else if hasStr
    then mkTypeStats (S (stringParticipants s)) (objectParticipants s) (mixedParticipants s)
    else s in
  let count := match participants with
               | VArr items => List.length items
               | _ => 0%nat
               end in
  Normal (mkClassification
            (if hasContacts then withContacts acc ++ [c] else withContacts acc)
            (if hasContacts then withoutContacts acc else withoutContacts acc ++ [c])
            s'
            (if (1 <? count)%nat then groups acc ++ [c] else groups acc)
            (if (1 <? count)%nat then solo acc else solo acc ++ [c])).

Fixpoint classify_from (acc : classification) (convs : list value)
  : completion classification :=
  match convs with
  | [] => Normal acc
  | c :: rest => acc' <~ classify_one acc c; classify_from acc' rest
  end.

Definition classifyConversations (convs : list value) : completion classification :=
  classify_from (mkClassification [] [] (mkTypeStats 0 0 0) [] []) convs.

(** [findSoloByNumber] and [findGroupsByNumber] of
    check_number_conversation.js; [number] is the string read from the
    command line. *)
Definition findSoloByNumber (convs : list value) (number : string)
  : completion (list value) :=
  array_filter
    (fun c =>
       participants <~ get_prop c "participants";
       if is_array participants then
         len <~ get_prop participants "length";
         if match len with VNum n => (n =? 1)%Z | _ => false end then
           first <~ get_index0 participants;
           Normal (strict_eq_str first number)
         else Normal false
       else Normal false)
    convs.

Definition findGroupsByNumber (convs : list value) (number : string)
  : completion (list value) :=
  array_filter
    (fun c =>
       participants <~ get_prop c "participants";
       if is_array participants then
         len <~ get_prop participants "length";
         if match len with VNum n => (1 <? n)%Z | _ => false end then
           found <~ call_includes participants number;
           Normal (truthy found)
         else Normal false
       else Normal false)
    convs.

(** An entry that is neither [null] nor [undefined]. *)
Definition present (c : value) : Prop := nullish c = false.

(** A group conversation: its [participants] field is an array of more than
    one entry. *)
Definition is_group (c : value) : bool :=
  match c with
  | VObj props =>
      match assoc "participants" props with
      | VArr items => (1 <? List.length items)%nat
      | _ => false
      end
  | _ => false
  end.

(** A conversation that comes with contacts for its participants. *)
Definition has_contacts (c : value) : bool :=
  match c with
  | VObj props =>
      match assoc "participantContacts" props with
      | VArr items => (0 <? List.length items)%nat
      | _ => false
      end
  | _ => false
  end.

(** A conversation that lists the number among its participants. *)
Definition mentions (number : string) (c : value) : bool :=
  match c with
  | VObj props =>
      match assoc "participants" props with
      | VArr items => existsb (fun x => strict_eq_str x number) items
      | _ => false
      end
  | _ => false
  end.

(** ** More sample data *)

(** An OpenAI endpoint that answers with a completion. *)
Definition openai_up : Platform :=
  answering 200
    (VObj [("choices",
            VArr [VObj [("message", VObj [("content", VStr " Ola ")])]])]).

Definition translate_body : list (string * value) :=
  [("text", VStr "hi"); ("targetLang", VStr "pt")].

(** A page of messages, and a provider error body. *)
Definition messages_answer : value := VObj [("data", VArr [VObj [("id", VStr "AC1")]])].

Definition unauthorized : value := VObj [("message", VStr "Unauthorized")].

(** URLs that always parse and carry their parameters as a query string. *)
Definition plain_urls : UrlApi :=
  mkUrlApi (fun _ => Normal tt) (fun base sets => base +++ "?" +++ params_toString sets).

(** A provider whose answer to the call after [k] earlier ones is a page
    with the one entry [k], announcing the next page under the token
    [T<k>]. *)
Definition numbered_page (k : nat) : list (string * value) :=
  [("data", VArr [VNum (Z.of_nat k)]);
   ("nextPageToken", VStr ("T" +++ decimal (Z.of_nat k)))].

Definition paging : Platform :=
  mkPlatform (fun k _ => FetchResponse 200 (Normal (VObj (numbered_page k))))
             (fun _ _ => true) (fun _ => Error "write after end") (fun _ => false).

(** A LibreTranslate that answers with a translation. *)
Definition libre_up : Platform := answering 200 (VObj [("translatedText", VStr "oi")]).

Definition translated_body : list (string * value) :=
  [("text", VStr "hi"); ("to", VStr "+15551234567"); ("targetLang", VStr "pt")].

Definition sample_conversation : list (string * value) :=
  [("id", VStr "CN1"); ("phoneNumberId", VStr "PN1");
   ("participants", VArr [VStr "+15551234567"])].

(** * Properties *)

(** ** The subscriber set *)

Lemma registered_in : forall c w, In c (sseClients w) -> registered c w = true.
Proof.
  intros c w Hin. unfold registered.
  apply existsb_exists. exists c. split; [assumption | apply Nat.eqb_refl].
Qed.

Lemma filter_others_id :
  forall c l, ~ In c l -> filter (fun c' => negb (Nat.eqb c c')) l = l.
Proof.
  intros c l. induction l as [|x l IH]; intros Hnin; simpl.
  - reflexivity.
  - destruct (Nat.eqb_spec c x) as [->|Hne]; simpl.
    + exfalso. apply Hnin. left. reflexivity.
    + f_equal. apply IH. intros Hin. apply Hnin. right. exact Hin.
Qed.

Lemma delete_middle :
  forall c pre rest,
    NoDup (pre ++ c :: rest) ->
    filter (fun c' => negb (Nat.eqb c c')) (pre ++ c :: rest) = pre ++ rest.
Proof.
  intros c pre rest Hnd.
  pose proof (NoDup_remove_2 _ _ _ Hnd) as Hnin.
  rewrite filter_app. simpl. rewrite Nat.eqb_refl. simpl.
  rewrite !filter_others_id; [reflexivity | |];
    intros Hin; apply Hnin; apply in_or_app; [right | left]; exact Hin.
Qed.

(** The loop, started with [pre] already visited and kept and [pending]
    still to visit: every pending subscriber is written to once, in order,
    and exactly those whose write failed leave the set. *)
Lemma broadcast_loop_spec :
  forall P data pending pre w,
    sseClients w = pre ++ pending ->
    NoDup (pre ++ pending) ->
    broadcast_loop P pending data w =
    (Normal tt,
     mkWorld (calls w) (console w)
             (pre ++ filter (fun c => chan P c data) pending)
             (wire w ++ map (fun c => (c, data, chan P c data)) pending)).
Proof.
  intros P data pending.
  induction pending as [|c rest IH]; intros pre w Hreg Hnd.
  - simpl. unfold ret. destruct w as [cs co sc wi]; simpl in *.
    subst sc. rewrite !app_nil_r. reflexivity.
  - cbn [broadcast_loop].
    rewrite registered_in by (rewrite Hreg; apply in_or_app; right; left; reflexivity).
    unfold bind, try_catch, client_write, sse_delete.
    destruct (chan P c data) eqn:Hok.
    + rewrite (IH (pre ++ [c])); cbn [sseClients calls console wire].
      * cbn [filter map]. rewrite Hok. rewrite <- !app_assoc. reflexivity.
      * rewrite Hreg, <- app_assoc. reflexivity.
      * rewrite <- app_assoc. exact Hnd.
    + rewrite (IH pre); cbn [sseClients calls console wire].
      * cbn [filter map]. rewrite Hok. rewrite <- !app_assoc. reflexivity.
      * rewrite Hreg. apply delete_middle. exact Hnd.
      * apply NoDup_remove_1 with (a := c). exact Hnd.
Qed.

(** The loop never throws, whatever the set holds. *)
Lemma broadcast_loop_normal :
  forall P data pending w, exists w', broadcast_loop P pending data w = (Normal tt, w').
Proof.
  intros P data pending.
  induction pending as [|c rest IH]; intros w.
  - exists w. reflexivity.
  - cbn [broadcast_loop]. destruct (registered c w).
    + unfold bind, try_catch, client_write, sse_delete.
      destruct (chan P c data); apply IH.
    + apply IH.
Qed.


(** C1.  For every subscriber set and every event, [broadcast] ends
    normally; it attempts one write of the serialized event to every
    registered subscriber, in registration order; the subscribers whose
    write succeeds receive the frame and stay registered, and those whose
    write fails are removed, without any effect on the others. *)
Theorem broadcast_fault_isolation :
  forall (P : Platform) (type : string) (payload : value) (w : World),
    NoDup (sseClients w) ->
    broadcast P type payload w =
    (Normal tt,
     mkWorld (calls w) (console w)
             (filter (fun c => chan P c (sse_frame type payload)) (sseClients w))
             (wire w ++ map (fun c => (c, sse_frame type payload,
                                       chan P c (sse_frame type payload)))
                            (sseClients w))).
Proof.
  intros P type payload w Hnd. unfold broadcast.
  apply (broadcast_loop_spec P (sse_frame type payload) (sseClients w) [] w).
  - reflexivity.
  - exact Hnd.
Qed.

Lemma broadcast_fault_isolation_witness :
  NoDup (sseClients three_clients) /\
  broadcast one_dead "openphone" (VObj [("type", VStr "message.received")]) three_clients =
  (Normal tt,
   mkWorld [] [] [1; 3]%nat
     [(1%nat, sse_frame "openphone" (VObj [("type", VStr "message.received")]), true);
      (2%nat, sse_frame "openphone" (VObj [("type", VStr "message.received")]), false);
      (3%nat, sse_frame "openphone" (VObj [("type", VStr "message.received")]), true)]).
Proof.
  assert (Hnd : NoDup (sseClients three_clients)).
  { repeat constructor; simpl; intuition discriminate. }
  split; [exact Hnd |].
  exact (broadcast_fault_isolation one_dead "openphone"
           (VObj [("type", VStr "message.received")]) three_clients Hnd).
Defined.

(** ** The translation router *)

Lemma provider_unrecognized :
  forall env name,
    env_TRANSLATE_PROVIDER env <> Some name ->
    name <> "LIBRE" ->
    String.eqb (TRANSLATE_PROVIDER env) name = false.
Proof.
  intros env name Hsel Hname. apply String.eqb_neq.
  unfold TRANSLATE_PROVIDER, env_or.
  destruct (env_TRANSLATE_PROVIDER env) as [s|].
  - destruct (is_empty s).
    + intros Heq. apply Hname. symmetry. exact Heq.
    + intros Heq. apply Hsel. rewrite Heq. reflexivity.
  - intros Heq. apply Hname. symmetry. exact Heq.
Qed.

(** C2.  A call of [translateText] always ends normally, whatever the
    back-end does; and when the back-end the selector dispatches to throws
    (network error, error status, malformed JSON, missing credential), the
    exception is caught in [translateText], logged, and the original text
    is the result. *)
Theorem translateText_never_raises :
  forall P env text targetLang sourceLang prompt w,
    (exists v w',
        translateText P env text targetLang sourceLang prompt w = (Normal v, w')) /\
    (forall e w1,
        translateText_dispatch P env text targetLang
          (default_param sourceLang (VStr "auto"))
          (default_param prompt (VStr EmptyString)) w = (Throw e, w1) ->
        fst (translateText P env text targetLang sourceLang prompt w) = Normal text /\
        (truthy text = true -> truthy targetLang = true ->
         snd (translateText P env text targetLang sourceLang prompt w) =
         mkWorld (calls w1) (console w1 ++ [ConsoleError "Translation error:" e])
                 (sseClients w1) (wire w1))).
Proof.
  intros P env text targetLang sourceLang prompt w. unfold translateText.
  destruct (negb (truthy text) || negb (truthy targetLang)) eqn:Hguard.
  - split.
    + exists text, w. reflexivity.
    + intros e w1 _. split; [reflexivity |].
      intros Ht Hl. rewrite Ht, Hl in Hguard. discriminate.
  - unfold try_catch.
    destruct (translateText_dispatch P env text targetLang
                (default_param sourceLang (VStr "auto"))
                (default_param prompt (VStr EmptyString)) w) as [[v|e0] w0] eqn:Hrun.
    + split.
      * exists v, w0. reflexivity.
      * intros e w1 Heq. discriminate.
    + split.
      * eexists. eexists. unfold bind, console_error, ret. reflexivity.
      * intros e w1 Heq. injection Heq as -> ->.
        split; [reflexivity | intros _ _; reflexivity].
Qed.

Lemma translateText_never_raises_witness :
  fst (translateText offline env_unset (VStr "hi") (VStr "pt") VUndefined VUndefined fresh)
  = Normal (VStr "hi")
  /\
  console (snd (translateText offline env_unset (VStr "hi") (VStr "pt")
                  VUndefined VUndefined fresh))
  = [ConsoleError "Translation error:" (TypeError "fetch failed")].
Proof.
  destruct (translateText_never_raises offline env_unset (VStr "hi") (VStr "pt")
              VUndefined VUndefined fresh) as [_ Hcaught].
  destruct (Hcaught (TypeError "fetch failed")
              (snd (translateText_dispatch offline env_unset (VStr "hi") (VStr "pt")
                      (VStr "auto") (VStr EmptyString) fresh))
              eq_refl) as [Hvalue Hstate].
  split; [exact Hvalue |].
  rewrite (Hstate eq_refl eq_refl). reflexivity.
Defined.

(** The failures the specification lists, one by one. *)
Example translateText_network_error :
  fst (translateText offline env_unset (VStr "hi") (VStr "pt") VUndefined VUndefined fresh)
  = Normal (VStr "hi").
Proof. vm_compute. reflexivity. Qed.

Example translateText_error_status :
  fst (translateText (answering 500 (VObj [("error", VObj [("message", VStr "boom")])]))
         env_provider_openai (VStr "hi") (VStr "pt") VUndefined VUndefined fresh)
  = Normal (VStr "hi").
Proof. vm_compute. reflexivity. Qed.

Example translateText_malformed_json :
  fst (translateText (malformed 200) env_unset (VStr "hi") (VStr "pt")
         VUndefined VUndefined fresh)
  = Normal (VStr "hi").
Proof. vm_compute. reflexivity. Qed.

Example translateText_missing_credential :
  translateText offline env_deepl_no_key (VStr "hi") (VStr "pt") VUndefined VUndefined fresh
  = (Normal (VStr "hi"),
     mkWorld [] [ConsoleError "Translation error:" (Error "DEEPL_API_KEY not configured")]
             [] []).
Proof. vm_compute. reflexivity. Qed.

(** C9.  A selector that is none of DEEPL, GOOGLE and OPENAI (unset and
    empty included) makes [translateText] behave as with LIBRE, and its
    dispatch is the call of the LibreTranslate back-end. *)
Theorem unrecognized_provider_is_libre :
  forall P env text targetLang sourceLang prompt w,
    env_TRANSLATE_PROVIDER env <> Some "DEEPL" ->
    env_TRANSLATE_PROVIDER env <> Some "GOOGLE" ->
    env_TRANSLATE_PROVIDER env <> Some "OPENAI" ->
    translateText P env text targetLang sourceLang prompt w =
    translateText P (with_provider env (Some "LIBRE")) text targetLang sourceLang prompt w
    /\
    translateText_dispatch P env text targetLang sourceLang prompt w =
    translateWithLibre P env text targetLang sourceLang w.
Proof.
  intros P env text targetLang sourceLang prompt w Hd Hg Ho.
  assert (Hdispatch : forall s p w0,
             translateText_dispatch P env text targetLang s p w0 =
             translateWithLibre P env text targetLang s w0).
  { intros s p w0. unfold translateText_dispatch.
    rewrite (provider_unrecognized env "DEEPL" Hd) by discriminate.
    rewrite (provider_unrecognized env "GOOGLE" Hg) by discriminate.
    rewrite (provider_unrecognized env "OPENAI" Ho) by discriminate.
    reflexivity. }
  split; [| apply Hdispatch].
  unfold translateText.
  destruct (negb (truthy text) || negb (truthy targetLang)); [reflexivity |].
  unfold try_catch. rewrite Hdispatch. reflexivity.
Qed.

Lemma unrecognized_provider_is_libre_witness :
  translateText offline (with_provider env_sender (Some "YANDEX"))
    (VStr "hi") (VStr "pt") VUndefined VUndefined fresh =
  translateText offline (with_provider (with_provider env_sender (Some "YANDEX")) (Some "LIBRE"))
    (VStr "hi") (VStr "pt") VUndefined VUndefined fresh
  /\
  translateText_dispatch offline (with_provider env_sender (Some "YANDEX"))
    (VStr "hi") (VStr "pt") VUndefined VUndefined fresh =
  translateWithLibre offline (with_provider env_sender (Some "YANDEX"))
    (VStr "hi") (VStr "pt") VUndefined fresh.
Proof.
  apply (unrecognized_provider_is_libre offline (with_provider env_sender (Some "YANDEX")));
    simpl; discriminate.
Defined.

(** ** POST /api/messages *)

Ltac split_innermost x :=
  lazymatch x with
  | context [match ?y with _ => _ end] => split_innermost y
  | _ => destruct x eqn:?
  end.

(** Case analysis on everything a run recorded in [H] depends on. *)
Ltac run_in H :=
  unfold response_json, send_failed, console_error, console_discarded in H;
  unfold bind, lift, throw, ret, try_catch, fetch in H;
  repeat (cbv beta iota zeta in H; cbn [resp_json resp_status] in H;
          match type of H with
          | context [match ?x with _ => _ end] => split_innermost x
          end).

Ltac enter_post_messages :=
  unfold post_messages; unfold try_catch at 1;
  unfold bind at 1 2 3 4 5 6 7; unfold lift; cbn [get_prop]; cbv beta iota.

Lemma skipn_exact : forall (A : Type) (l extra : list A),
    skipn (List.length l) (l ++ extra) = extra.
Proof.
  intros A l extra. induction l as [|x l IH]; simpl; [reflexivity | exact IH].
Qed.

Lemma skipn_self : forall (A : Type) (l : list A), skipn (List.length l) l = [].
Proof.
  intros A l. induction l as [|x l IH]; simpl; [reflexivity | exact IH].
Qed.

Lemma translateWithOpenAI_effect :
  forall P env text targetLang prompt w c w',
    translateWithOpenAI P env text targetLang prompt w = (c, w') ->
    one_call_to "https://api.openai.com/v1/chat/completions" w w'.
Proof.
  intros P env text targetLang prompt w c w' H.
  unfold translateWithOpenAI in H.
  run_in H; inversion H; subst; unfold one_call_to; cbn [calls console sseClients wire];
    repeat split; auto; right; eexists; split; reflexivity.
Qed.

Lemma send_upstream_effect :
  forall P env translatedText fromNumber to userId w c w',
    send_upstream P env translatedText fromNumber to userId w = (c, w') ->
    console w' = console w /\ sseClients w' = sseClients w /\ wire w' = wire w /\
    calls w' = calls w ++ [send_request env (send_payload env translatedText fromNumber to userId)].
Proof.
  intros P env translatedText fromNumber to userId w c w' H.
  unfold send_upstream in H.
  run_in H; inversion H; subst; cbn [calls console sseClients wire]; repeat split; auto.
Qed.

Lemma length_append : forall s t, String.length (s +++ t) = (String.length s + String.length t)%nat.
Proof.
  intros s t. induction s as [|c s IH]; simpl; [reflexivity | rewrite IH; reflexivity].
Qed.

(** The provider's send endpoint is never the OpenAI endpoint, whatever
    [OPENPHONE_API] is set to. *)
Lemma send_url_not_openai :
  forall env payload,
    req_url (send_request env payload) <> "https://api.openai.com/v1/chat/completions".
Proof.
  intros env payload Heq. cbn [send_request req_url] in Heq.
  pose proof (f_equal String.length Heq) as Hlen.
  rewrite length_append in Hlen. cbn in Hlen.
  pose proof (append_correct2 (OPENPHONE_API env) "/messages" 0) as Hget.
  rewrite Heq in Hget.
  replace (0 + String.length (OPENPHONE_API env))%nat with 33%nat in Hget by lia.
  vm_compute in Hget. discriminate.
Qed.

Lemma post_messages_missing_fields :
  forall P env props w,
    truthy (assoc "text" props) = false \/ truthy (assoc "to" props) = false ->
    post_messages P env (VObj props) w =
    (Normal (json_response 400 (VObj [("error", VStr "text e to são obrigatórios")])), w).
Proof.
  intros P env props w Hmissing. enter_post_messages.
  assert (Hguard : negb (truthy (assoc "text" props)) || negb (truthy (assoc "to" props))
                   = true).
  { destruct Hmissing as [-> | ->]; [reflexivity | apply orb_true_r]. }
  rewrite Hguard. reflexivity.
Qed.

Lemma post_messages_no_sender :
  forall P env props w,
    truthy (assoc "text" props) = true ->
    truthy (assoc "to" props) = true ->
    truthy (js_or (assoc "from" props) (env_value (OPENPHONE_FROM env))) = false ->
    post_messages P env (VObj props) w =
    (Normal (json_response 400
               (VObj [("error",
                       VStr "from ausente. Configure OPENPHONE_FROM ou envie no corpo.")])),
     w).
Proof.
  intros P env props w Htext Hto Hfrom. enter_post_messages.
  rewrite Htext, Hto. cbn [negb orb]. rewrite Hfrom. reflexivity.
Qed.

(** The handler once its guards have passed: the translation block, then
    the send. *)
Lemma post_messages_guarded :
  forall P env props w,
    truthy (assoc "text" props) = true ->
    truthy (assoc "to" props) = true ->
    truthy (js_or (assoc "from" props) (env_value (OPENPHONE_FROM env))) = true ->
    post_messages P env (VObj props) w =
    try_catch
      (translation <- translate_for_send P env (assoc "text" props)
                        (assoc "targetLang" props) (assoc "sourceLang" props)
                        (assoc "strict" props) ;;
       match translation with
       | inl early => ret early
       | inr translatedText =>
           send_upstream P env translatedText
             (js_or (assoc "from" props) (env_value (OPENPHONE_FROM env)))
             (assoc "to" props) (assoc "userId" props)
       end)
      send_failed w.
Proof.
  intros P env props w Htext Hto Hfrom. enter_post_messages.
  rewrite Htext, Hto. cbn [negb orb]. rewrite Hfrom. reflexivity.
Qed.

(** The strict branch: the OpenAI back-end is called; its failure is the
    answer, its result is what is sent. *)
Lemma post_messages_strict :
  forall P env props w,
    truthy (assoc "strict" props) = true ->
    truthy (assoc "targetLang" props) = true ->
    truthy (assoc "text" props) = true ->
    truthy (assoc "to" props) = true ->
    truthy (js_or (assoc "from" props) (env_value (OPENPHONE_FROM env))) = true ->
    post_messages P env (VObj props) w =
    match (prompt <- lift (send_prompt (assoc "targetLang" props)) ;;
           translateWithOpenAI P env (assoc "text" props) (assoc "targetLang" props) prompt) w
    with
    | (Throw e, w1) =>
        (Normal (strict_failure e), log_error "Strict translation failed:" e w1)
    | (Normal t, w1) =>
        try_catch
          (send_upstream P env t
             (js_or (assoc "from" props) (env_value (OPENPHONE_FROM env)))
             (assoc "to" props) (assoc "userId" props))
          send_failed w1
    end.
Proof.
  intros P env props w Hstrict Hlang Htext Hto Hfrom.
  rewrite post_messages_guarded by assumption.
  unfold translate_for_send. rewrite Hlang, Hstrict.
  unfold try_catch, bind, lift, ret, console_error.
  destruct (send_prompt (assoc "targetLang" props)) as [prompt|e]; [| reflexivity].
  destruct (translateWithOpenAI P env (assoc "text" props) (assoc "targetLang" props) prompt w)
    as [[t|e] w1]; reflexivity.
Qed.

(** C7.  A body whose [text] or [to] is missing or empty is answered 400
    and the process state is untouched: no upstream call, translation or
    send, is issued.  The same holds when both are present and neither the
    body's [from] nor [OPENPHONE_FROM] gives a sender. *)
Theorem post_messages_rejects_incomplete :
  forall P env props w,
    (truthy (assoc "text" props) = false \/ truthy (assoc "to" props) = false ->
     post_messages P env (VObj props) w =
     (Normal (json_response 400 (VObj [("error", VStr "text e to são obrigatórios")])), w))
    /\
    (truthy (assoc "text" props) = true ->
     truthy (assoc "to" props) = true ->
     truthy (assoc "from" props) = false ->
     env_set (OPENPHONE_FROM env) = false ->
     post_messages P env (VObj props) w =
     (Normal (json_response 400
                (VObj [("error",
                        VStr "from ausente. Configure OPENPHONE_FROM ou envie no corpo.")])),
      w)).
Proof.
  intros P env props w. split.
  - apply post_messages_missing_fields.
  - intros Htext Hto Hfrom Henv. apply post_messages_no_sender; try assumption.
    unfold js_or. rewrite Hfrom. exact Henv.
Qed.

Lemma post_messages_rejects_incomplete_witness :
  post_messages offline env_sender (VObj [("to", VStr "+15551234567")]) fresh =
  (Normal (json_response 400 (VObj [("error", VStr "text e to são obrigatórios")])), fresh)
  /\
  post_messages offline env_unset (VObj [("text", VStr "hi"); ("to", VStr "+15551234567")])
    fresh =
  (Normal (json_response 400
             (VObj [("error",
                     VStr "from ausente. Configure OPENPHONE_FROM ou envie no corpo.")])),
   fresh).
Proof.
  split.
  - apply (proj1 (post_messages_rejects_incomplete offline env_sender
                    [("to", VStr "+15551234567")] fresh)).
    left. reflexivity.
  - apply (proj2 (post_messages_rejects_incomplete offline env_unset
                    [("text", VStr "hi"); ("to", VStr "+15551234567")] fresh));
      reflexivity.
Defined.

Lemma strict_attempt_effect :
  forall P env text targetLang c w w',
    (prompt <- lift (send_prompt targetLang) ;;
     translateWithOpenAI P env text targetLang prompt) w = (c, w') ->
    one_call_to "https://api.openai.com/v1/chat/completions" w w'.
Proof.
  intros P env text targetLang c w w' H. unfold bind at 1, lift in H.
  destruct (send_prompt targetLang) as [prompt|e].
  - apply translateWithOpenAI_effect in H. exact H.
  - inversion H; subst. unfold one_call_to. auto.
Qed.

(** C3.  On the strict path with [text], [to] and [targetLang] given: when
    the run reports a failed strict translation (the line the [catch] of
    the strict branch writes, with the error [e]), the answer has status
    500 and the body [{error: 'Falha na tradução', provider: 'openai',
    details: e.message}], and no send request is among the upstream calls
    of the run.  And whenever a sender is resolved and the OpenAI back-end
    throws [e], the run is such a run: it stops right after the back-end,
    with that status and body. *)
Theorem strict_translation_failure_surfaces :
  forall P env props w,
    truthy (assoc "strict" props) = true ->
    truthy (assoc "targetLang" props) = true ->
    truthy (assoc "text" props) = true ->
    truthy (assoc "to" props) = true ->
    (forall e,
        In (ConsoleError "Strict translation failed:" e)
           (console_since w (snd (post_messages P env (VObj props) w))) ->
        (exists resp,
            fst (post_messages P env (VObj props) w) = Normal resp /\
            http_status resp = 500%Z /\
            http_body resp = VObj [("error", VStr "Falha na tradução");
                                   ("provider", VStr "openai");
                                   ("details", VStr (err_message e))]) /\
        forall payload,
          ~ In (send_request env payload)
               (calls_since w (snd (post_messages P env (VObj props) w))))
    /\
    (forall prompt e w1,
        truthy (js_or (assoc "from" props) (env_value (OPENPHONE_FROM env))) = true ->
        send_prompt (assoc "targetLang" props) = Normal prompt ->
        translateWithOpenAI P env (assoc "text" props) (assoc "targetLang" props) prompt w
        = (Throw e, w1) ->
        post_messages P env (VObj props) w =
        (Normal (json_response 500
                   (VObj [("error", VStr "Falha na tradução");
                          ("provider", VStr "openai");
                          ("details", VStr (err_message e))])),
         log_error "Strict translation failed:" e w1)).
Proof.
  intros P env props w Hstrict Hlang Htext Hto. split.
  - intros e Hlogged.
    destruct (truthy (js_or (assoc "from" props) (env_value (OPENPHONE_FROM env))))
      eqn:Hfrom.
    + rewrite post_messages_strict in * by assumption.
      destruct ((prompt <- lift (send_prompt (assoc "targetLang" props)) ;;
                 translateWithOpenAI P env (assoc "text" props)
                   (assoc "targetLang" props) prompt) w) as [[t|e0] w1] eqn:Hrun.
      * exfalso.
        apply strict_attempt_effect in Hrun. destruct Hrun as (Hco & _).
        unfold try_catch in Hlogged.
        destruct (send_upstream P env t
                    (js_or (assoc "from" props) (env_value (OPENPHONE_FROM env)))
                    (assoc "to" props) (assoc "userId" props) w1) as [[r|e1] w2] eqn:Hsend;
          apply send_upstream_effect in Hsend; destruct Hsend as (Hco2 & _);
          unfold console_since in Hlogged; cbn in Hlogged;
          rewrite Hco2, Hco in Hlogged.
        -- rewrite skipn_self in Hlogged. exact Hlogged.
        -- rewrite skipn_exact in Hlogged. destruct Hlogged as [Heq | []].
           discriminate Heq.
      * apply strict_attempt_effect in Hrun. destruct Hrun as (Hco & _ & _ & Hcalls).
        cbn [fst snd] in *. unfold console_since, log_error in Hlogged.
        cbn [console] in Hlogged. rewrite Hco, skipn_exact in Hlogged.
        destruct Hlogged as [Heq | []]. injection Heq as ->.
        split; [eexists; split; [reflexivity | split; reflexivity] |].
        intros payload Hin. unfold calls_since, log_error in Hin. cbn [calls] in Hin.
        destruct Hcalls as [Hsame | (r & Hone & Hurl)].
        -- rewrite Hsame, skipn_self in Hin. exact Hin.
        -- rewrite Hone, skipn_exact in Hin. destruct Hin as [Heq | []].
           subst r. exact (send_url_not_openai env payload Hurl).
    + exfalso. rewrite post_messages_no_sender in Hlogged by assumption.
      unfold console_since in Hlogged. cbn [snd] in Hlogged.
      rewrite skipn_self in Hlogged. exact Hlogged.
  - intros prompt e w1 Hfrom Hprompt Hthrow.
    rewrite post_messages_strict by assumption.
    unfold bind at 1, lift. rewrite Hprompt, Hthrow. reflexivity.
Qed.

Lemma strict_translation_failure_surfaces_witness :
  ((exists resp,
       fst (post_messages openai_down env_openai (VObj strict_body) fresh) = Normal resp /\
       http_status resp = 500%Z /\
       http_body resp = VObj [("error", VStr "Falha na tradução");
                              ("provider", VStr "openai");
                              ("details", VStr "boom")]) /\
   forall payload,
     ~ In (send_request env_openai payload)
          (calls_since fresh (snd (post_messages openai_down env_openai (VObj strict_body)
                                     fresh))))
  /\
  post_messages offline env_sender (VObj strict_body) fresh =
  (Normal (json_response 500
             (VObj [("error", VStr "Falha na tradução");
                    ("provider", VStr "openai");
                    ("details", VStr "OPENAI_API_KEY not configured")])),
   log_error "Strict translation failed:" (Error "OPENAI_API_KEY not configured") fresh).
Proof.
  split.
  - apply (proj1 (strict_translation_failure_surfaces openai_down env_openai strict_body fresh
                    eq_refl eq_refl eq_refl eq_refl) (Error "boom")).
    vm_compute. left. reflexivity.
  - refine (proj2 (strict_translation_failure_surfaces offline env_sender strict_body fresh
                     eq_refl eq_refl eq_refl eq_refl)
              _ (Error "OPENAI_API_KEY not configured") fresh eq_refl _ _).
    + reflexivity.
    + reflexivity.
Defined.

(** C10.  With [strict] and [targetLang] set, the handler does the same
    whatever the provider selector is; once its guards have passed, what it
    does is call the OpenAI back-end, answer with its failure or send its
    result. *)
Theorem strict_send_ignores_selector :
  forall P env selector props w,
    truthy (assoc "strict" props) = true ->
    truthy (assoc "targetLang" props) = true ->
    post_messages P (with_provider env selector) (VObj props) w =
    post_messages P env (VObj props) w
    /\
    (truthy (assoc "text" props) = true ->
     truthy (assoc "to" props) = true ->
     truthy (js_or (assoc "from" props) (env_value (OPENPHONE_FROM env))) = true ->
     post_messages P (with_provider env selector) (VObj props) w =
     match (prompt <- lift (send_prompt (assoc "targetLang" props)) ;;
            translateWithOpenAI P env (assoc "text" props) (assoc "targetLang" props) prompt) w
     with
     | (Throw e, w1) =>
         (Normal (strict_failure e), log_error "Strict translation failed:" e w1)
     | (Normal t, w1) =>
         try_catch
           (send_upstream P env t
              (js_or (assoc "from" props) (env_value (OPENPHONE_FROM env)))
              (assoc "to" props) (assoc "userId" props))
           send_failed w1
     end).
Proof.
  intros P env selector props w Hstrict Hlang.
  assert (Hguarded :
            truthy (assoc "text" props) = true ->
            truthy (assoc "to" props) = true ->
            truthy (js_or (assoc "from" props) (env_value (OPENPHONE_FROM env))) = true ->
            post_messages P (with_provider env selector) (VObj props) w =
            match (prompt <- lift (send_prompt (assoc "targetLang" props)) ;;
                   translateWithOpenAI P env (assoc "text" props)
                     (assoc "targetLang" props) prompt) w
            with
            | (Throw e, w1) =>
                (Normal (strict_failure e), log_error "Strict translation failed:" e w1)
            | (Normal t, w1) =>
                try_catch
                  (send_upstream P env t
                     (js_or (assoc "from" props) (env_value (OPENPHONE_FROM env)))
                     (assoc "to" props) (assoc "userId" props))
                  send_failed w1
            end).
  { intros Htext Hto Hfrom.
    exact (post_messages_strict P (with_provider env selector) props w
             Hstrict Hlang Htext Hto Hfrom). }
  split; [| exact Hguarded].
  destruct (truthy (assoc "text" props)) eqn:Htext.
  - destruct (truthy (assoc "to" props)) eqn:Hto.
    + destruct (truthy (js_or (assoc "from" props) (env_value (OPENPHONE_FROM env))))
        eqn:Hfrom.
      * rewrite Hguarded by reflexivity.
        rewrite post_messages_strict by assumption. reflexivity.
      * rewrite (post_messages_no_sender P env) by assumption.
        apply post_messages_no_sender; assumption.
    + rewrite !post_messages_missing_fields by (right; assumption). reflexivity.
  - rewrite !post_messages_missing_fields by (left; assumption). reflexivity.
Qed.

Lemma strict_send_ignores_selector_witness :
  post_messages openai_down (with_provider env_openai (Some "DEEPL")) (VObj strict_body) fresh =
  post_messages openai_down env_openai (VObj strict_body) fresh.
Proof.
  exact (proj1 (strict_send_ignores_selector openai_down env_openai (Some "DEEPL")
                  strict_body fresh eq_refl eq_refl)).
Defined.

(** C4.  [translateText] returns its text, untouched and without any
    effect, when the text or the target language is missing or empty.  In
    the handler, strict or not, a request without target language sends
    the text as it is, the send being the only upstream call; and a request
    without text never reaches the translation. *)
Theorem translation_identity_passthrough :
  forall P env w,
    (forall text targetLang sourceLang prompt,
        truthy text = false \/ truthy targetLang = false ->
        translateText P env text targetLang sourceLang prompt w = (Normal text, w))
    /\
    (forall props,
        truthy (assoc "targetLang" props) = false ->
        truthy (assoc "text" props) = true ->
        truthy (assoc "to" props) = true ->
        truthy (js_or (assoc "from" props) (env_value (OPENPHONE_FROM env))) = true ->
        post_messages P env (VObj props) w =
        try_catch
          (send_upstream P env (assoc "text" props)
             (js_or (assoc "from" props) (env_value (OPENPHONE_FROM env)))
             (assoc "to" props) (assoc "userId" props))
          send_failed w
        /\
        calls (snd (post_messages P env (VObj props) w)) =
        calls w ++
        [send_request env
           (send_payload env (assoc "text" props)
              (js_or (assoc "from" props) (env_value (OPENPHONE_FROM env)))
              (assoc "to" props) (assoc "userId" props))])
    /\
    (forall props,
        truthy (assoc "text" props) = false ->
        post_messages P env (VObj props) w =
        (Normal (json_response 400 (VObj [("error", VStr "text e to são obrigatórios")])), w)).
Proof.
  intros P env w. split; [| split].
  - intros text targetLang sourceLang prompt Hmissing. unfold translateText.
    assert (Hguard : negb (truthy text) || negb (truthy targetLang) = true).
    { destruct Hmissing as [-> | ->]; [reflexivity | apply orb_true_r]. }
    rewrite Hguard. reflexivity.
  - intros props Hlang Htext Hto Hfrom.
    assert (Hrun : post_messages P env (VObj props) w =
                   try_catch
                     (send_upstream P env (assoc "text" props)
                        (js_or (assoc "from" props) (env_value (OPENPHONE_FROM env)))
                        (assoc "to" props) (assoc "userId" props))
                     send_failed w).
    { rewrite post_messages_guarded by assumption.
      unfold translate_for_send. rewrite Hlang. reflexivity. }
    split; [exact Hrun |].
    rewrite Hrun. unfold try_catch.
    destruct (send_upstream P env (assoc "text" props)
                (js_or (assoc "from" props) (env_value (OPENPHONE_FROM env)))
                (assoc "to" props) (assoc "userId" props) w) as [[r|e] w1] eqn:Hsend;
      apply send_upstream_effect in Hsend; destruct Hsend as (_ & _ & _ & Hcalls);
      cbn [snd send_failed]; exact Hcalls.
  - intros props Htext. apply post_messages_missing_fields. left. exact Htext.
Qed.

Lemma translation_identity_passthrough_witness :
  translateText offline env_unset (VStr "hi") VUndefined VUndefined VUndefined fresh =
  (Normal (VStr "hi"), fresh)
  /\
  calls (snd (post_messages offline env_sender (VObj (("strict", VBool true) :: plain_body))
                fresh)) =
  [send_request env_sender
     (VObj [("content", VStr "hi"); ("from", VStr "+15550000000");
            ("to", VArr [VStr "+15551234567"])])]
  /\
  post_messages offline env_sender (VObj [("to", VStr "+15551234567"); ("strict", VBool true)])
    fresh =
  (Normal (json_response 400 (VObj [("error", VStr "text e to são obrigatórios")])), fresh).
Proof.
  pose proof (translation_identity_passthrough offline env_unset fresh) as (Hrouter & _ & _).
  pose proof (translation_identity_passthrough offline env_sender fresh)
    as (_ & Hsend & Hguard).
  split; [| split].
  - apply Hrouter. right. reflexivity.
  - exact (proj2 (Hsend (("strict", VBool true) :: plain_body)
                    eq_refl eq_refl eq_refl eq_refl)).
  - apply Hguard. reflexivity.
Defined.

(** ** The DeepL back-end *)

(** C5.  With a configured key the DeepL request is form-encoded and
    carries the uppercased target language.  A source language other than
    [auto] is sent uppercased; with [auto] the [source_lang] field is not
    left out: the literal text [undefined] is sent for it. *)
Theorem deepl_request_shape :
  forall P env text targetLang sourceLang w,
    env_set (DEEPL_API_KEY env) = true ->
    exists r,
      calls (snd (translateWithDeepL P env (VStr text) (VStr targetLang) (VStr sourceLang) w))
      = calls w ++ [r] /\
      In ("Content-Type", "application/x-www-form-urlencoded") (req_headers r) /\
      req_body r =
      FormBody [("text", text);
                ("target_lang", toUpperCase targetLang);
                ("source_lang",
                 if String.eqb sourceLang "auto" then "undefined"
                 else toUpperCase sourceLang)].
Proof.
  intros P env text targetLang sourceLang w Hkey.
  destruct (translateWithDeepL P env (VStr text) (VStr targetLang) (VStr sourceLang) w)
    as [c w'] eqn:H.
  cbn [snd]. unfold translateWithDeepL in H. rewrite Hkey in H.
  cbn [negb call_toUpperCase strict_eq_str] in H.
  destruct (String.eqb sourceLang "auto");
    unfold bind at 1 2 3, lift in H;
    cbn [call_toUpperCase URLSearchParams to_js_string cbind] in H;
    run_in H; inversion H; subst; cbn [calls];
    (eexists; split; [reflexivity | split; [right; left; reflexivity | reflexivity]]).
Qed.

Lemma deepl_request_shape_witness :
  exists r,
    calls (snd (translateWithDeepL offline env_deepl (VStr "hi") (VStr "pt") (VStr "auto") fresh))
    = calls fresh ++ [r] /\
    In ("Content-Type", "application/x-www-form-urlencoded") (req_headers r) /\
    req_body r =
    FormBody [("text", "hi"); ("target_lang", toUpperCase "pt"); ("source_lang", "undefined")].
Proof.
  exact (deepl_request_shape offline env_deepl "hi" "pt" "auto" fresh eq_refl).
Defined.

(** The body as it goes on the wire for [translateWithDeepL("hi", "pt", "auto")]. *)
Example deepl_auto_wire_body :
  params_toString [("text", "hi"); ("target_lang", toUpperCase "pt");
                   ("source_lang", "undefined")]
  = "text=hi&target_lang=PT&source_lang=undefined".
Proof. reflexivity. Qed.

(** ** POST /webhooks/openphone *)

Lemma broadcast_normal :
  forall P type payload w,
    broadcast P type payload w = (Normal tt, snd (broadcast P type payload w)).
Proof.
  intros P type payload w. unfold broadcast.
  destruct (broadcast_loop_normal P (sse_frame type payload) (sseClients w) w) as [w' Hw'].
  rewrite Hw'. reflexivity.
Qed.

(** A webhook body whose [type] is a number: [includes] is not a function
    on it, the handler's [catch] answers 500 with [{ok: false}], and
    nothing is broadcast. *)
Lemma webhook_numeric_type_is_500 :
  webhook_openphone one_dead (VObj [("type", VNum 5)]) three_clients =
  (Normal (json_response 500 (VObj [("ok", VBool false)])),
   log_error "Webhook error:" (TypeError "includes is not a function") three_clients).
Proof. reflexivity. Qed.

(** C8, amended.  A body whose [type] is missing, [null], a string or an
    array is answered 200 with [{ok: true}], and the event is broadcast
    exactly when its type denotes a message event. *)
Theorem webhook_acknowledges_plain_types :
  forall P event w,
    plain_type (type_of_event event) = true ->
    webhook_openphone P event w =
    (Normal (json_response 200 (VObj [("ok", VBool true)])),
     if denotes_message event then snd (broadcast P "openphone" event w) else w).
Proof.
  intros P event w Hplain.
  unfold webhook_openphone, try_catch, bind, lift, opt_chain, denotes_message.
  destruct event as [| |b|n|s|items|props]; try reflexivity.
  cbn [nullish get_prop cbind type_of_event] in *.
  destruct (assoc "type" props) as [| |b|n|s|items|props']; try discriminate Hplain;
    try reflexivity.
  - cbn [nullish call_includes truthy].
    destruct (includes_str "message" s); [| reflexivity].
    rewrite broadcast_normal. reflexivity.
  - cbn [nullish call_includes truthy].
    destruct (existsb (fun x => strict_eq_str x "message") items); [| reflexivity].
    rewrite broadcast_normal. reflexivity.
Qed.

Lemma webhook_acknowledges_plain_types_witness :
  webhook_openphone one_dead (VObj [("type", VStr "message.received")]) three_clients =
  (Normal (json_response 200 (VObj [("ok", VBool true)])),
   snd (broadcast one_dead "openphone" (VObj [("type", VStr "message.received")])
          three_clients))
  /\
  webhook_openphone one_dead (VObj [("type", VStr "call.completed")]) three_clients =
  (Normal (json_response 200 (VObj [("ok", VBool true)])), three_clients).
Proof.
  split.
  - exact (webhook_acknowledges_plain_types one_dead
             (VObj [("type", VStr "message.received")]) three_clients eq_refl).
  - exact (webhook_acknowledges_plain_types one_dead
             (VObj [("type", VStr "call.completed")]) three_clients eq_refl).
Defined.

(** ** GET /api/conversations *)

Lemma one_to_one_spec :
  forall c, nullish c = false -> one_to_one c = Normal (single_participant c).
Proof.
  intros c Hc. destruct c as [| |b|n|s|items|props]; try discriminate Hc; try reflexivity.
  unfold one_to_one, single_participant. cbn [get_prop cbind].
  destruct (assoc "participants" props) as [| |b|n|s|items|props']; try reflexivity.
  cbn [is_array get_prop cbind String.eqb Ascii.eqb Bool.eqb].
  destruct items as [|x [|y rest]]; try reflexivity.
  f_equal. apply Z.eqb_neq. cbn [List.length]. lia.
Qed.

Lemma array_filter_spec :
  forall items,
    Forall present items ->
    array_filter one_to_one items = Normal (filter single_participant items).
Proof.
  intros items Hall. induction Hall as [|c rest Hc _ IH].
  - reflexivity.
  - cbn [array_filter filter]. rewrite (one_to_one_spec c Hc), IH. reflexivity.
Qed.

Lemma entries_present :
  forall items, Forall conversation_entry items -> Forall present items.
Proof.
  intros items Hall. induction Hall as [|c rest [Hc _] _ IH]; constructor; assumption.
Qed.

Lemma last_message_lookup_effect :
  forall P env c r w w',
    last_message_lookup P env c w = (r, w') ->
    console w' = console w /\
    (forall c', r = Normal c' -> same_conversation c c').
Proof.
  intros P env c r w w' H. unfold last_message_lookup in H.
  run_in H; inversion H; subst; (split; [reflexivity |]);
    intros c' Heq; inversion Heq; subst; unfold same_conversation;
    try (left; reflexivity); right; eexists; eassumption.
Qed.

Lemma fetch_last_message_spec :
  forall P env c w,
    printable_id c ->
    exists c' w',
      fetch_last_message P env c w = (Normal c', w') /\
      same_conversation c c' /\
      exists extra, console w' = console w ++ extra.
Proof.
  intros P env c w (label & Hlabel).
  unfold fetch_last_message, try_catch.
  destruct (last_message_lookup P env c w) as [[c'|e] w1] eqn:Hrun;
    apply last_message_lookup_effect in Hrun; destruct Hrun as (Hco & Hsame).
  - exists c', w1. split; [reflexivity |]. split; [apply Hsame; reflexivity |].
    exists []. rewrite app_nil_r. exact Hco.
  - unfold cbind in Hlabel.
    destruct (get_prop c "id") as [id|e0] eqn:Hid; [| discriminate Hlabel].
    unfold bind, lift, console_error, ret. rewrite Hlabel.
    eexists. eexists. split; [reflexivity |]. split; [left; reflexivity |].
    unfold log_error. cbn [console]. rewrite Hco. eexists. reflexivity.
Qed.

Lemma for_each_conversation_spec :
  forall P env items w,
    Forall printable_id items ->
    exists items' w',
      for_each_conversation P env items w = (Normal items', w') /\
      Forall2 same_conversation items items' /\
      exists extra, console w' = console w ++ extra.
Proof.
  intros P env items. induction items as [|c rest IH]; intros w Hall.
  - exists [], w. split; [reflexivity |]. split; [constructor |].
    exists []. rewrite app_nil_r. reflexivity.
  - inversion Hall as [|? ? Hc Hrest]; subst.
    destruct (fetch_last_message_spec P env c w Hc) as (c' & w1 & Hrun & Hsame & ex1 & Hco1).
    destruct (IH w1 Hrest) as (rest' & w2 & Hloop & Hall2 & ex2 & Hco2).
    exists (c' :: rest'), w2. cbn [for_each_conversation].
    unfold bind, ret. rewrite Hrun, Hloop.
    split; [reflexivity |]. split; [constructor; assumption |].
    exists (ex1 ++ ex2). rewrite Hco2, Hco1, app_assoc. reflexivity.
Qed.

Lemma assoc_set_own :
  forall k v props, assoc k (set_own k v props) = v.
Proof.
  intros k v props. induction props as [|[k' v'] rest IH]; cbn [set_own assoc].
  - rewrite String.eqb_refl. reflexivity.
  - destruct (String.eqb k k') eqn:Hk; cbn [assoc].
    + rewrite String.eqb_refl. reflexivity.
    + rewrite Hk. exact IH.
Qed.

Lemma set_own_twice :
  forall k v v' props, set_own k v (set_own k v' props) = set_own k v props.
Proof.
  intros k v v' props. induction props as [|[k0 v0] rest IH]; cbn [set_own].
  - rewrite String.eqb_refl. reflexivity.
  - destruct (String.eqb k k0) eqn:Hk; cbn [set_own].
    + rewrite String.eqb_refl. reflexivity.
    + rewrite Hk, IH. reflexivity.
Qed.

Lemma Forall2_same_length :
  forall (A B : Type) (R : A -> B -> Prop) l l',
    Forall2 R l l' -> List.length l = List.length l'.
Proof.
  intros A B R l l' H. induction H; cbn; [reflexivity | f_equal; assumption].
Qed.

Lemma filter_complement_length :
  forall (A : Type) (f : A -> bool) l,
    (List.length (filter (fun x => negb (f x)) l) =
     List.length l - List.length (filter f l))%nat.
Proof.
  intros A f l. induction l as [|x l IH]; [reflexivity |].
  pose proof (filter_length_le f l) as Hle.
  cbn [filter]. destruct (f x); cbn [negb List.length]; lia.
Qed.

(** A page with a [null] entry: the filter reads [participants] of
    [null], and the handler's [catch] answers 500 instead of the filtered
    page. *)
Lemma conversations_null_entry_is_500 :
  get_prop (VObj [("data", VArr [VNull])]) "data" = Normal (VArr [VNull]) /\
  fst (get_conversations (answering 200 (VObj [("data", VArr [VNull])])) env_sender
         (VObj []) fresh)
  = Normal (json_response 500 (VObj [("error", VStr "Falha ao carregar conversas")])).
Proof. split; reflexivity. Qed.

(** C6, amended.  When the provider answers with a page whose [data] is
    an array without [null] entries, and the [id] of each of its one-to-one
    entries can be converted to a string (nothing is asked of the [id] of
    the entries that are discarded), the handler relays the provider's
    status and the page with [data] replaced by the one-to-one entries, in
    their order, each as it was or with its last message attached; the
    count it logs as discarded is the input length minus the output length,
    which is the number of entries that are not one-to-one. *)
Theorem conversations_keep_one_to_one :
  forall P env query w req status props items,
    conversations_request env query = Normal req ->
    net P (List.length (calls w)) req = FetchResponse status (Normal (VObj props)) ->
    assoc "data" props = VArr items ->
    Forall present items ->
    Forall printable_id (filter single_participant items) ->
    exists items' w',
      get_conversations P env query w =
      (Normal (json_response status (VObj (set_own "data" (VArr items') props))), w') /\
      Forall2 same_conversation (filter single_participant items) items' /\
      In (ConsoleDiscarded (Z.of_nat (List.length items) - Z.of_nat (List.length items'))
                           (Z.of_nat (List.length items')))
         (console_since w w') /\
      List.length (filter (fun c => negb (single_participant c)) items) =
      (List.length items - List.length items')%nat.
Proof.
  intros P env query w req status props items Hreq Hnet Hdata Hall Hids.
  pose (w1 := mkWorld (calls w ++ [req]) (console w) (sseClients w) (wire w)).
  pose (kept := filter single_participant items).
  pose (w2 := mkWorld (calls w1)
                (console w1 ++ [ConsoleDiscarded
                                  (Z.of_nat (List.length items) - Z.of_nat (List.length kept))
                                  (Z.of_nat (List.length kept))])
                (sseClients w1) (wire w1)).
  destruct (for_each_conversation_spec P env kept w2 Hids)
    as (items' & w' & Hloop & Hsame & extra & Hco).
  exists items', w'.
  pose proof (Forall2_same_length _ _ _ _ _ Hsame) as Hlen. fold kept in Hsame.
  split; [| split; [exact Hsame | split]].
  - unfold get_conversations, try_catch.
    unfold bind at 1, lift. rewrite Hreq.
    unfold bind at 1, fetch. rewrite Hnet. cbv zeta.
    unfold bind at 1, response_json, lift. cbn [resp_json truthy].
    unfold bind at 1 2. cbn [get_prop]. rewrite Hdata.
    unfold bind at 1. rewrite (array_filter_spec items Hall).
    unfold bind at 1. cbn [set_prop].
    unfold bind at 1, console_discarded, ret.
    unfold bind at 1. cbn [get_prop]. rewrite assoc_set_own.
    unfold bind at 1 2. fold kept. fold w1. fold w2.
    rewrite Hloop. cbn [set_prop]. rewrite set_own_twice. reflexivity.
  - unfold console_since. rewrite Hco. subst w2 w1. cbn [console].
    rewrite <- app_assoc, skipn_exact. left. rewrite <- Hlen. reflexivity.
  - rewrite <- Hlen. apply filter_complement_length.
Qed.

Lemma conversations_keep_one_to_one_witness :
  exists items' w',
    get_conversations (answering 200 (VObj mixed_page)) env_sender (VObj []) fresh =
    (Normal (json_response 200 (VObj (set_own "data" (VArr items') mixed_page))), w') /\
    Forall2 same_conversation (filter single_participant mixed_items) items' /\
    In (ConsoleDiscarded (Z.of_nat (List.length mixed_items) - Z.of_nat (List.length items'))
                         (Z.of_nat (List.length items')))
       (console_since fresh w') /\
    List.length (filter (fun c => negb (single_participant c)) mixed_items) =
    (List.length mixed_items - List.length items')%nat.
Proof.
  eapply (conversations_keep_one_to_one (answering 200 (VObj mixed_page)) env_sender
            (VObj []) fresh _ 200 mixed_page mixed_items).
  - reflexivity.
  - reflexivity.
  - reflexivity.
  - repeat constructor.
  - repeat constructor. eexists. reflexivity.
Defined.

(** The sample page, run: the group conversation is dropped and one entry
    is logged as discarded. *)
Example conversations_sample_run :
  exists c w',
    get_conversations (answering 200 (VObj sample_page)) env_sender (VObj []) fresh =
    (Normal (json_response 200 (VObj [("data", VArr [c]); ("nextPageToken", VNull)])), w') /\
    get_prop c "id" = Normal (VStr "CN1") /\
    console w' = [ConsoleDiscarded 1 1].
Proof.
  eexists. eexists. split; [vm_compute; reflexivity | split; reflexivity].
Qed.

(** * Further properties *)

(** ** GET /api/messages *)

(** Rewrites the answer of the oracle the run has recorded. *)
Ltac use_net :=
  match goal with
  | Hn : net ?P ?n ?r0 = _ |- context [net ?P ?n ?r1] =>
      change (net P n r1) with (net P n r0); rewrite Hn
  end.

(** X1.  GET /api/messages issues at most one upstream call.  Without a
    call the answer is 400 or 500; with one, a GET carrying the API key,
    the answer is the provider's status and JSON body as they came, and
    500 when the call failed or the body was not JSON. *)
Theorem get_messages_relays :
  forall P env query w,
    exists resp,
      fst (get_messages P env query w) = Normal resp /\
      ((calls (snd (get_messages P env query w)) = calls w /\
        (http_status resp = 400%Z \/ http_status resp = 500%Z))
       \/
       exists r,
         calls (snd (get_messages P env query w)) = calls w ++ [r] /\
         req_method r = "GET" /\ req_headers r = authHeader env /\ req_body r = NoBody /\
         resp = match net P (List.length (calls w)) r with
                | FetchResponse st (Normal data) => json_response st data
                | _ => json_response 500 (VObj [("error", VStr "Falha ao carregar mensagens")])
                end).
Proof.
  intros P env query w.
  destruct (get_messages P env query w) as [c w'] eqn:H. cbn [fst snd].
  unfold get_messages, messages_failed in H.
  run_in H; inversion H; subst; unfold log_error; cbn [calls];
    eexists; (split; [reflexivity |]);
    first [ left; split; [reflexivity | cbn [http_status]; auto]
          | right; eexists; split; [reflexivity |];
            repeat (split; [reflexivity |]);
            use_net; reflexivity ].
Qed.

(** X2.  GET /api/messages without [phoneNumberId] or without
    [participants] is answered 400, and nothing is sent upstream. *)
Theorem get_messages_requires_fields :
  forall P env props w,
    truthy (assoc "phoneNumberId" props) = false \/
    truthy (assoc "participants" props) = false ->
    get_messages P env (VObj props) w =
    (Normal (json_response 400
               (VObj [("error", VStr "phoneNumberId e participants são obrigatórios")])),
     w).
Proof.
  intros P env props w Hmissing.
  unfold get_messages. unfold try_catch at 1.
  unfold bind at 1 2 3 4; unfold lift; cbn [get_prop]; cbv beta iota.
  assert (Hguard : negb (truthy (assoc "phoneNumberId" props)) ||
                   negb (truthy (assoc "participants" props)) = true).
  { destruct Hmissing as [-> | ->]; [reflexivity | apply orb_true_r]. }
  rewrite Hguard. reflexivity.
Qed.

Lemma get_messages_requires_fields_witness :
  get_messages offline env_sender (VObj [("phoneNumberId", VStr "PN1")]) fresh =
  (Normal (json_response 400
             (VObj [("error", VStr "phoneNumberId e participants são obrigatórios")])),
   fresh).
Proof.
  apply (get_messages_requires_fields offline env_sender [("phoneNumberId", VStr "PN1")] fresh).
  right. reflexivity.
Defined.

(** X3.  A lone participant is handled as a list of one: the run, the
    upstream request included, is the same for [participants=p] and for
    [participants=[p]]. *)
Theorem get_messages_lone_participant :
  forall P env participant rest w,
    truthy participant = true ->
    is_array participant = false ->
    get_messages P env (VObj (("participants", participant) :: rest)) w =
    get_messages P env (VObj (("participants", VArr [participant]) :: rest)) w.
Proof.
  intros P env participant rest w Htruthy Harray.
  unfold get_messages, try_catch.
  unfold bind at 1 2 3 4. unfold bind at 9 10 11 12.
  unfold lift. cbn [get_prop assoc String.eqb Ascii.eqb Bool.eqb]. cbv beta iota.
  rewrite Htruthy, Harray. cbn [truthy is_array]. reflexivity.
Qed.

Lemma get_messages_lone_participant_witness :
  get_messages offline env_sender
    (VObj [("participants", VStr "+15551234567"); ("phoneNumberId", VStr "PN1")]) fresh =
  get_messages offline env_sender
    (VObj [("participants", VArr [VStr "+15551234567"]); ("phoneNumberId", VStr "PN1")]) fresh.
Proof.
  exact (get_messages_lone_participant offline env_sender (VStr "+15551234567")
           [("phoneNumberId", VStr "PN1")] fresh eq_refl eq_refl).
Defined.

(** ** POST /api/translate and the OpenAI back-end *)

Lemma js_or_truthy :
  forall t text, truthy text = true -> truthy (js_or t text) = true.
Proof.
  intros t text Htext. unfold js_or. destruct (truthy t) eqn:Ht; assumption.
Qed.

Lemma guard_passed :
  forall a b, negb (truthy a) || negb (truthy b) = false ->
              truthy a = true /\ truthy b = true.
Proof.
  intros a b H. destruct (truthy a), (truthy b); try discriminate H. split; reflexivity.
Qed.

(** X4.  POST /api/translate answers 400 without any upstream call when
    the body is missing or lacks [text] or [targetLang], and 500 naming
    the provider, again without any call, when [OPENAI_API_KEY] is not
    set. *)
Theorem post_translate_rejects_without_call :
  forall P env w,
    (forall body,
        truthy body = false ->
        post_translate P env body w =
        (Normal (json_response 400 (VObj [("error", VStr "text e targetLang são obrigatórios")])),
         w))
    /\
    (forall props,
        truthy (assoc "text" props) = false \/ truthy (assoc "targetLang" props) = false ->
        post_translate P env (VObj props) w =
        (Normal (json_response 400 (VObj [("error", VStr "text e targetLang são obrigatórios")])),
         w))
    /\
    (forall props,
        truthy (assoc "text" props) = true ->
        truthy (assoc "targetLang" props) = true ->
        env_set (OPENAI_API_KEY env) = false ->
        post_translate P env (VObj props) w =
        (Normal (json_response 500
                   (VObj [("error", VStr "OPENAI_API_KEY não configurado");
                          ("provider", VStr "openai")])),
         w)).
Proof.
  intros P env w. split; [| split].
  - intros body Hbody. unfold post_translate, js_or. rewrite Hbody. reflexivity.
  - intros props Hmissing. unfold post_translate, js_or. cbn [truthy].
    unfold try_catch at 1. unfold bind at 1 2 3; unfold lift; cbn [get_prop]; cbv beta iota.
    assert (Hguard : negb (truthy (assoc "text" props)) ||
                     negb (truthy (assoc "targetLang" props)) = true).
    { destruct Hmissing as [-> | ->]; [reflexivity | apply orb_true_r]. }
    rewrite Hguard. reflexivity.
  - intros props Htext Hlang Hkey.
    unfold post_translate, js_or. cbn [truthy].
    unfold try_catch at 1. unfold bind at 1 2 3; unfold lift; cbn [get_prop]; cbv beta iota.
    rewrite Htext, Hlang, Hkey. reflexivity.
Qed.

Lemma post_translate_rejects_without_call_witness :
  post_translate offline env_openai VUndefined fresh =
  (Normal (json_response 400 (VObj [("error", VStr "text e targetLang são obrigatórios")])),
   fresh)
  /\
  post_translate offline env_openai (VObj [("text", VStr "hi")]) fresh =
  (Normal (json_response 400 (VObj [("error", VStr "text e targetLang são obrigatórios")])),
   fresh)
  /\
  post_translate openai_up env_sender (VObj translate_body) fresh =
  (Normal (json_response 500
             (VObj [("error", VStr "OPENAI_API_KEY não configurado");
                    ("provider", VStr "openai")])),
   fresh).
Proof.
  destruct (post_translate_rejects_without_call offline env_openai fresh)
    as (Hbody & Hfields & _).
  destruct (post_translate_rejects_without_call openai_up env_sender fresh)
    as (_ & _ & Hkey).
  split; [| split].
  - apply Hbody. reflexivity.
  - apply Hfields. right. reflexivity.
  - apply Hkey; reflexivity.
Defined.

(** X5.  A 200 of POST /api/translate carries a translation that is not
    empty, and stands for exactly one call to the OpenAI endpoint, which
    answered with a 2xx status. *)
Theorem post_translate_ok_means_translated :
  forall P env body w resp,
    fst (post_translate P env body w) = Normal resp ->
    http_status resp = 200%Z ->
    exists t r st js,
      http_body resp = VObj [("translatedText", t);
                             ("provider", VStr "openai");
                             ("model", VStr "gpt-4o-mini")] /\
      truthy t = true /\
      calls (snd (post_translate P env body w)) = calls w ++ [r] /\
      req_url r = "https://api.openai.com/v1/chat/completions" /\
      net P (List.length (calls w)) r = FetchResponse st js /\
      (200 <= st <= 299)%Z.
Proof.
  intros P env body w resp Hresp Hok.
  destruct (post_translate P env body w) as [c w'] eqn:H. cbn [fst snd] in *. subst c.
  unfold post_translate, translate_failed, translateWithOpenAI in H.
  run_in H; inversion H; subst; cbn [http_status] in Hok; try discriminate Hok.
  cbn [http_body calls].
  match goal with
  | Hg : negb (truthy _) || negb (truthy _) = false |- _ =>
      apply guard_passed in Hg; destruct Hg as [Htext _]
  end.
  do 4 eexists.
  split; [reflexivity |].
  split; [apply js_or_truthy; exact Htext |].
  split; [reflexivity |].
  split; [reflexivity |].
  split; [match goal with Hn : net _ _ _ = _ |- _ => exact Hn end |].
  match goal with
  | Hr : negb (resp_ok _) = false |- _ =>
      unfold resp_ok in Hr; cbn [resp_status] in Hr;
      apply negb_false_iff, andb_true_iff in Hr; destruct Hr as [Hlo Hhi];
      apply Z.leb_le in Hlo, Hhi; split; assumption
  end.
Qed.

Lemma post_translate_ok_means_translated_witness :
  exists t r st js,
    http_body (json_response 200
                 (VObj [("translatedText", VStr "Ola");
                        ("provider", VStr "openai");
                        ("model", VStr "gpt-4o-mini")])) =
    VObj [("translatedText", t); ("provider", VStr "openai"); ("model", VStr "gpt-4o-mini")] /\
    truthy t = true /\
    calls (snd (post_translate openai_up env_openai (VObj translate_body) fresh)) =
    calls fresh ++ [r] /\
    req_url r = "https://api.openai.com/v1/chat/completions" /\
    net openai_up (List.length (calls fresh)) r = FetchResponse st js /\
    (200 <= st <= 299)%Z.
Proof.
  apply (post_translate_ok_means_translated openai_up env_openai (VObj translate_body) fresh).
  - vm_compute. reflexivity.
  - reflexivity.
Defined.

(** X6.  An answer of the OpenAI endpoint with a status outside 200..299
    never yields a translation: [translateWithOpenAI] throws, whatever the
    body says. *)
Theorem openai_error_status_throws :
  forall P env text targetLang prompt w st js,
    (forall r, net P (List.length (calls w)) r = FetchResponse st js) ->
    (st < 200 \/ 299 < st)%Z ->
    exists e, fst (translateWithOpenAI P env text targetLang prompt w) = Throw e.
Proof.
  intros P env text targetLang prompt w st js Hnet Hst.
  destruct (translateWithOpenAI P env text targetLang prompt w) as [c w'] eqn:H.
  cbn [fst]. unfold translateWithOpenAI in H.
  run_in H; inversion H; subst; try (eexists; reflexivity).
  exfalso.
  match goal with
  | Hn : net _ _ ?r = FetchResponse _ _ |- _ =>
      pose proof (Hnet r) as Hsame; rewrite Hn in Hsame; injection Hsame as Hs Hj; subst
  end.
  match goal with
  | Hr : negb (resp_ok _) = false |- _ =>
      unfold resp_ok in Hr; cbn [resp_status] in Hr;
      apply negb_false_iff, andb_true_iff in Hr; destruct Hr as [Hlo Hhi];
      apply Z.leb_le in Hlo, Hhi; lia
  end.
Qed.

Lemma openai_error_status_throws_witness :
  exists e,
    fst (translateWithOpenAI openai_down env_openai (VStr "hi") (VStr "pt") VUndefined fresh)
    = Throw e.
Proof.
  apply (openai_error_status_throws openai_down env_openai (VStr "hi") (VStr "pt") VUndefined
           fresh 500 (Normal (VObj [("error", VObj [("message", VStr "boom")])]))).
  - intros r. reflexivity.
  - right. lia.
Defined.

(** X7.  On an error status the exception carries the provider's
    [error.message] when the body has one, and [OpenAI error: <status>]
    when the body has no [error]. *)
Theorem openai_error_message :
  forall P env text targetLang prompt w st dprops,
    env_set (OPENAI_API_KEY env) = true ->
    (forall r, net P (List.length (calls w)) r = FetchResponse st (Normal (VObj dprops))) ->
    (st < 200 \/ 299 < st)%Z ->
    (forall eprops m,
        assoc "error" dprops = VObj eprops ->
        assoc "message" eprops = VStr m ->
        is_empty m = false ->
        fst (translateWithOpenAI P env (VStr text) (VStr targetLang) (VStr prompt) w)
        = Throw (Error m))
    /\
    (assoc "error" dprops = VUndefined ->
     fst (translateWithOpenAI P env (VStr text) (VStr targetLang) (VStr prompt) w)
     = Throw (Error ("OpenAI error: " +++ decimal st))).
Proof.
  intros P env text targetLang prompt w st dprops Hkey Hnet Hst.
  assert (Hbad : forall js, resp_ok (mkResponse st js) = false).
  { intros js. unfold resp_ok. cbn [resp_status].
    apply andb_false_iff. destruct Hst; [left | right]; apply Z.leb_gt; assumption. }
  assert (Hlead : exists lead, to_js_string (js_or (VStr prompt) (VStr EmptyString)) = Normal lead).
  { unfold js_or. destruct (truthy (VStr prompt)); eexists; reflexivity. }
  destruct Hlead as [lead Hlead].
  assert (Hrun : forall detail message,
             (err <~ get_prop (VObj dprops) "error";
              opt_chain err (fun err => get_prop err "message")) = Normal detail ->
             to_js_string (js_or detail (VStr ("OpenAI error: " +++ decimal st)))
             = Normal message ->
             fst (translateWithOpenAI P env (VStr text) (VStr targetLang) (VStr prompt) w)
             = Throw (Error message)).
  { intros detail message Hdetail Hmessage.
    unfold translateWithOpenAI. rewrite Hkey. cbn [negb].
    unfold bind at 1 2 3, lift. cbn [to_js_string]. rewrite Hlead.
    unfold bind at 1, fetch. rewrite Hnet. cbv zeta.
    unfold bind at 1, response_json, lift. cbn [resp_json].
    rewrite Hbad. cbn [negb].
    unfold bind, lift, throw, opt_chain. cbn [nullish resp_status].
    unfold opt_chain in Hdetail. rewrite Hdetail, Hmessage. reflexivity. }
  split.
  - intros eprops m Herr Hm Hne. apply (Hrun (VStr m)).
    + cbn [get_prop cbind]. rewrite Herr. unfold opt_chain. cbn [nullish get_prop].
      rewrite Hm. reflexivity.
    + unfold js_or. cbn [truthy]. rewrite Hne. reflexivity.
  - intros Herr. apply (Hrun VUndefined).
    + cbn [get_prop cbind]. rewrite Herr. reflexivity.
    + reflexivity.
Qed.

Lemma openai_error_message_witness :
  fst (translateWithOpenAI openai_down env_openai (VStr "hi") (VStr "pt") (VStr "formal") fresh)
  = Throw (Error "boom").
Proof.
  refine (proj1 (openai_error_message openai_down env_openai "hi" "pt" "formal" fresh 500
                   [("error", VObj [("message", VStr "boom")])] eq_refl _ _)
            [("message", VStr "boom")] "boom" eq_refl eq_refl eq_refl).
  - intros r. reflexivity.
  - right. lia.
Defined.

(** ** What the translation returns *)

Lemma js_or_cases :
  forall t text, js_or t text = text \/ truthy (js_or t text) = true.
Proof.
  intros t text. unfold js_or. destruct (truthy t) eqn:Ht; [right; exact Ht | left; reflexivity].
Qed.

Ltac close_outcome :=
  split; [try discriminate; intros v Hv; injection Hv as <-; apply js_or_cases |];
  first [ solve [ exists EmptyString; unfold one_call_to; cbn [calls console sseClients wire];
                  repeat split; auto ]
        | eexists; unfold one_call_to; cbn [calls console sseClients wire];
          repeat split; auto; right; eexists; split; reflexivity ].

(** What a back-end returns is the text or a value that is not empty, and
    it calls upstream at most once. *)
Lemma translateWithDeepL_outcome :
  forall P env text targetLang sourceLang w c w',
    translateWithDeepL P env text targetLang sourceLang w = (c, w') ->
    (forall v, c = Normal v -> v = text \/ truthy v = true) /\
    exists url, one_call_to url w w'.
Proof.
  intros P env text targetLang sourceLang w c w' H. unfold translateWithDeepL in H.
  run_in H; inversion H; subst; close_outcome.
Qed.

Lemma translateWithLibre_outcome :
  forall P env text targetLang sourceLang w c w',
    translateWithLibre P env text targetLang sourceLang w = (c, w') ->
    (forall v, c = Normal v -> v = text \/ truthy v = true) /\
    exists url, one_call_to url w w'.
Proof.
  intros P env text targetLang sourceLang w c w' H. unfold translateWithLibre in H.
  run_in H; inversion H; subst; close_outcome.
Qed.

Lemma translateWithOpenAI_outcome :
  forall P env text targetLang prompt w c w',
    translateWithOpenAI P env text targetLang prompt w = (c, w') ->
    (forall v, c = Normal v -> v = text \/ truthy v = true) /\
    exists url, one_call_to url w w'.
Proof.
  intros P env text targetLang prompt w c w' H. unfold translateWithOpenAI in H.
  run_in H; inversion H; subst; close_outcome.
Qed.

Lemma translateText_dispatch_outcome :
  forall P env text targetLang sourceLang prompt w c w',
    translateText_dispatch P env text targetLang sourceLang prompt w = (c, w') ->
    (forall v, c = Normal v -> v = text \/ truthy v = true) /\
    exists url, one_call_to url w w'.
Proof.
  intros P env text targetLang sourceLang prompt w c w' H.
  unfold translateText_dispatch in H.
  destruct (String.eqb (TRANSLATE_PROVIDER env) "DEEPL");
    [exact (translateWithDeepL_outcome _ _ _ _ _ _ _ _ H) |].
  destruct (String.eqb (TRANSLATE_PROVIDER env) "GOOGLE").
  - unfold translateWithGoogle, throw in H. inversion H; subst.
    split; [intros v Hv; discriminate Hv |].
    exists EmptyString. unfold one_call_to. auto.
  - destruct (String.eqb (TRANSLATE_PROVIDER env) "OPENAI");
      [exact (translateWithOpenAI_outcome _ _ _ _ _ _ _ _ H)
      | exact (translateWithLibre_outcome _ _ _ _ _ _ _ _ H)].
Qed.

Lemma translateText_outcome :
  forall P env text targetLang sourceLang prompt w c w',
    translateText P env text targetLang sourceLang prompt w = (c, w') ->
    (exists v, c = Normal v /\ (v = text \/ truthy v = true)) /\
    sseClients w' = sseClients w /\ wire w' = wire w /\
    (calls w' = calls w \/ exists r, calls w' = calls w ++ [r]).
Proof.
  intros P env text targetLang sourceLang prompt w c w' H. unfold translateText in H.
  destruct (negb (truthy text) || negb (truthy targetLang)).
  - inversion H; subst. split; [exists text; auto | auto].
  - unfold try_catch in H.
    destruct (translateText_dispatch P env text targetLang
                (default_param sourceLang (VStr "auto"))
                (default_param prompt (VStr EmptyString)) w) as [[v|e] w1] eqn:Hrun;
      apply translateText_dispatch_outcome in Hrun;
      destruct Hrun as (Hvalue & url & Hco & Hsse & Hwire & Hcalls);
      unfold bind, console_error, ret, log_error in H; inversion H; subst;
      cbn [calls sseClients wire];
      (split; [eexists; split; [reflexivity | auto] |]);
      (split; [exact Hsse |]); (split; [exact Hwire |]);
      (destruct Hcalls as [Hsame | (r & Hone & _)];
       [left; exact Hsame | right; exists r; exact Hone]).
Qed.

(** X8.  [translateText] returns its text or a value that is not empty, so
    a message that is not empty stays so; it makes at most one upstream
    call and leaves the subscribers alone. *)
Theorem translateText_result :
  forall P env text targetLang sourceLang prompt w,
    exists v,
      fst (translateText P env text targetLang sourceLang prompt w) = Normal v /\
      (v = text \/ truthy v = true) /\
      (calls (snd (translateText P env text targetLang sourceLang prompt w)) = calls w \/
       exists r,
         calls (snd (translateText P env text targetLang sourceLang prompt w)) = calls w ++ [r])
      /\
      sseClients (snd (translateText P env text targetLang sourceLang prompt w)) = sseClients w.
Proof.
  intros P env text targetLang sourceLang prompt w.
  destruct (translateText P env text targetLang sourceLang prompt w) as [c w'] eqn:H.
  apply translateText_outcome in H.
  destruct H as ((v & -> & Hvalue) & Hsse & _ & Hcalls).
  exists v. cbn [fst snd]. auto.
Qed.

(** ** The calls of POST /api/messages *)




(** X10.  Without target language the answer of POST /api/messages is the
    provider's status and JSON body as they came, and 500 when the call
    failed or the body was not JSON. *)
Theorem post_messages_relays :
  forall P env props w,
    truthy (assoc "targetLang" props) = false ->
    truthy (assoc "text" props) = true ->
    truthy (assoc "to" props) = true ->
    truthy (js_or (assoc "from" props) (env_value (OPENPHONE_FROM env))) = true ->
    fst (post_messages P env (VObj props) w) =
    Normal
      match net P (List.length (calls w))
              (send_request env
                 (send_payload env (assoc "text" props)
                    (js_or (assoc "from" props) (env_value (OPENPHONE_FROM env)))
                    (assoc "to" props) (assoc "userId" props)))
      with
      | FetchResponse st (Normal data) => json_response st data
      | _ => json_response 500 (VObj [("error", VStr "Falha ao enviar mensagem")])
      end.
Proof.
  intros P env props w Hlang Htext Hto Hfrom.
  rewrite post_messages_guarded by assumption.
  unfold translate_for_send. rewrite Hlang.
  unfold send_upstream, send_failed, response_json, console_error.
  unfold try_catch, bind, ret, fetch, lift.
  cbv beta iota zeta.
  destruct (net P (List.length (calls w))
              (send_request env
                 (send_payload env (assoc "text" props)
                    (js_or (assoc "from" props) (env_value (OPENPHONE_FROM env)))
                    (assoc "to" props) (assoc "userId" props)))) as [e | st [data | e]];
    reflexivity.
Qed.

Lemma post_messages_relays_witness :
  fst (post_messages (answering 202 (VObj [("data", VObj [("id", VStr "AC1")])])) env_sender
         (VObj plain_body) fresh)
  = Normal (json_response 202 (VObj [("data", VObj [("id", VStr "AC1")])])).
Proof.
  exact (post_messages_relays (answering 202 (VObj [("data", VObj [("id", VStr "AC1")])]))
           env_sender plain_body fresh eq_refl eq_refl eq_refl eq_refl).
Defined.

Lemma libre_translation :
  forall P env text targetLang sourceLang prompt w st dprops c w',
    truthy text = true ->
    truthy targetLang = true ->
    TRANSLATE_PROVIDER env = "LIBRE" ->
    (forall r, net P (List.length (calls w)) r = FetchResponse st (Normal (VObj dprops))) ->
    truthy (assoc "translatedText" dprops) = true ->
    translateText P env text targetLang sourceLang prompt w = (c, w') ->
    c = Normal (assoc "translatedText" dprops) /\
    exists r, calls w' = calls w ++ [r] /\ req_url r = LIBRE_URL env +++ "/translate".
Proof.
  intros P env text targetLang sourceLang prompt w st dprops c w'
         Htext Hlang Hprov Hnet Ht H.
  unfold translateText in H. rewrite Htext, Hlang in H. cbn [negb orb] in H.
  unfold translateText_dispatch in H. rewrite Hprov in H.
  cbn [String.eqb Ascii.eqb Bool.eqb] in H.
  unfold translateWithLibre in H.
  run_in H;
    match goal with
    | Hn : net _ _ ?r = _ |- _ =>
        pose proof (Hnet r) as Hsame; rewrite Hn in Hsame;
        try discriminate Hsame; injection Hsame as Hs Hj; subst
    end;
    try discriminate;
    match goal with
    | Hg : get_prop (VObj dprops) "translatedText" = _ |- _ =>
        cbn [get_prop] in Hg; try discriminate Hg; injection Hg as <-
    end;
    injection H as <- <-; cbn [calls];
    (split; [unfold js_or; rewrite Ht; reflexivity |]);
    eexists; split; reflexivity.
Qed.

(** X11.  With LIBRE selected and a target language, what is sent is the
    [translatedText] the back-end answered, not the original text: the run
    makes the translation call and then the send with that content. *)
Theorem post_messages_sends_translation :
  forall P env props w st dprops lang,
    truthy (assoc "text" props) = true ->
    truthy (assoc "to" props) = true ->
    truthy (js_or (assoc "from" props) (env_value (OPENPHONE_FROM env))) = true ->
    truthy (assoc "targetLang" props) = true ->
    truthy (assoc "strict" props) = false ->
    to_js_string (assoc "targetLang" props) = Normal lang ->
    TRANSLATE_PROVIDER env = "LIBRE" ->
    (forall r, net P (List.length (calls w)) r = FetchResponse st (Normal (VObj dprops))) ->
    truthy (assoc "translatedText" dprops) = true ->
    exists r,
      calls (snd (post_messages P env (VObj props) w)) =
      calls w ++
      [r;
       send_request env
         (send_payload env (assoc "translatedText" dprops)
            (js_or (assoc "from" props) (env_value (OPENPHONE_FROM env)))
            (assoc "to" props) (assoc "userId" props))] /\
      req_url r = LIBRE_URL env +++ "/translate".
Proof.
  intros P env props w st dprops lang Htext Hto Hfrom Hlang Hstrict Hprint Hprov Hnet Ht.
  destruct (post_messages P env (VObj props) w) as [resp w'] eqn:H. cbn [snd].
  rewrite post_messages_guarded in H by assumption.
  unfold translate_for_send in H. rewrite Hlang, Hstrict in H.
  unfold send_prompt in H. rewrite Hprint in H. cbn [cbind] in H.
  unfold try_catch in H. unfold bind at 1 2 in H. unfold lift at 1 in H.
  unfold bind at 1 in H.
  destruct (translateText P env (assoc "text" props) (assoc "targetLang" props)
              (assoc "sourceLang" props) _ w) as [c w1] eqn:Htr.
  apply (libre_translation P env _ _ _ _ w st dprops c w1 Htext Hlang Hprov Hnet Ht) in Htr.
  destruct Htr as (-> & r & Hcalls & Hurl).
  exists r. split; [| exact Hurl].
  unfold ret at 1 in H.
  destruct (send_upstream P env (assoc "translatedText" dprops)
              (js_or (assoc "from" props) (env_value (OPENPHONE_FROM env)))
              (assoc "to" props) (assoc "userId" props) w1) as [[r2|e] w2] eqn:Hsend;
    apply send_upstream_effect in Hsend; destruct Hsend as (_ & _ & _ & Hsent);
    unfold send_failed, bind, console_error, ret, log_error in H;
    injection H as <- <-; cbn [calls]; rewrite Hsent, Hcalls, <- app_assoc; reflexivity.
Qed.

Lemma post_messages_sends_translation_witness :
  exists r,
    calls (snd (post_messages libre_up env_sender (VObj translated_body) fresh)) =
    calls fresh ++
    [r;
     send_request env_sender
       (send_payload env_sender (VStr "oi")
          (js_or VUndefined (env_value (OPENPHONE_FROM env_sender)))
          (VStr "+15551234567") VUndefined)] /\
    req_url r = LIBRE_URL env_sender +++ "/translate".
Proof.
  refine (post_messages_sends_translation libre_up env_sender translated_body fresh 200
            [("translatedText", VStr "oi")] "pt"
            eq_refl eq_refl eq_refl eq_refl eq_refl eq_refl eq_refl _ eq_refl).
  intros r. reflexivity.
Defined.

(** ** The statuses of the routes *)









(** ** GET /api/conversations, beyond the filter *)

(** X13.  When the provider's body has no [data] array (an error body, for
    one), GET /api/conversations relays status and body as they came,
    after the one listing call. *)
Theorem conversations_relays_other_bodies :
  forall P env query w req status page d,
    conversations_request env query = Normal req ->
    net P (List.length (calls w)) req = FetchResponse status (Normal page) ->
    get_prop page "data" = Normal d ->
    is_array d = false ->
    get_conversations P env query w =
    (Normal (json_response status page),
     mkWorld (calls w ++ [req]) (console w) (sseClients w) (wire w)).
Proof.
  intros P env query w req status page d Hreq Hnet Hdata Harray.
  unfold get_conversations, try_catch.
  unfold bind at 1, lift. rewrite Hreq.
  unfold bind at 1, fetch. rewrite Hnet. cbv zeta.
  unfold bind at 1, response_json, lift. cbn [resp_json].
  unfold bind at 1.
  destruct (truthy page).
  - unfold bind at 1. rewrite Hdata.
    destruct d as [| |b|n|s|items|props]; try discriminate Harray;
      unfold ret, bind; rewrite Hdata; reflexivity.
  - unfold ret, bind. rewrite Hdata.
    destruct d as [| |b|n|s|items|props]; try discriminate Harray; reflexivity.
Qed.

Lemma conversations_relays_other_bodies_witness :
  get_conversations (answering 401 unauthorized) env_sender (VObj []) fresh =
  (Normal (json_response 401 unauthorized),
   mkWorld
     (calls fresh ++
      [mkRequest (OPENPHONE_API env_sender +++ "/conversations?" +++
                  params_toString [("maxResults", "40")])
                 "GET" (authHeader env_sender) NoBody])
     (console fresh) (sseClients fresh) (wire fresh)).
Proof.
  exact (conversations_relays_other_bodies (answering 401 unauthorized) env_sender (VObj [])
           fresh _ 401 unauthorized VUndefined eq_refl eq_refl eq_refl eq_refl).
Defined.

(** X14.  When the listing call fails, or its body is not JSON or is
    [null], GET /api/conversations answers 500 and logs the error. *)
Theorem conversations_upstream_failure :
  forall P env query w req e,
    conversations_request env query = Normal req ->
    (net P (List.length (calls w)) req = FetchFailed e \/
     (exists status, net P (List.length (calls w)) req = FetchResponse status (Throw e)) \/
     (exists status, net P (List.length (calls w)) req = FetchResponse status (Normal VNull) /\
                     e = cannot_read "data")) ->
    get_conversations P env query w =
    (Normal (json_response 500 (VObj [("error", VStr "Falha ao carregar conversas")])),
     log_error "Error fetching conversations:" e
       (mkWorld (calls w ++ [req]) (console w) (sseClients w) (wire w))).
Proof.
  intros P env query w req e Hreq Hnet.
  unfold get_conversations, try_catch.
  unfold bind at 1, lift. rewrite Hreq.
  unfold bind at 1, fetch.
  destruct Hnet as [Hnet | [(status & Hnet) | (status & Hnet & ->)]]; rewrite Hnet; reflexivity.
Qed.

Lemma conversations_upstream_failure_witness :
  get_conversations offline env_sender (VObj []) fresh =
  (Normal (json_response 500 (VObj [("error", VStr "Falha ao carregar conversas")])),
   log_error "Error fetching conversations:" (TypeError "fetch failed")
     (mkWorld
        (calls fresh ++
         [mkRequest (OPENPHONE_API env_sender +++ "/conversations?" +++
                     params_toString [("maxResults", "40")])
                    "GET" (authHeader env_sender) NoBody])
        (console fresh) (sseClients fresh) (wire fresh))).
Proof.
  refine (conversations_upstream_failure offline env_sender (VObj []) fresh _
            (TypeError "fetch failed") eq_refl _).
  left. reflexivity.
Defined.

Lemma prefix_of_append_both :
  forall a b s, prefix_of b s = true -> prefix_of (a +++ b) (a +++ s) = true.
Proof.
  intros a b s H. induction a as [|c a IH]; cbn; [exact H |].
  rewrite Ascii.eqb_refl. exact IH.
Qed.

Lemma last_message_lookup_calls :
  forall P env c r w w',
    last_message_lookup P env c w = (r, w') ->
    sseClients w' = sseClients w /\ wire w' = wire w /\
    (calls w' = calls w \/
     exists q, calls w' = calls w ++ [q] /\ lookup_shaped env q).
Proof.
  intros P env c r w w' H. unfold last_message_lookup in H.
  run_in H; injection H as <- <-; cbn [calls sseClients wire];
    (split; [reflexivity |]); (split; [reflexivity |]);
    first [ left; reflexivity
          | right; eexists; split; [reflexivity |];
            unfold lookup_shaped; cbn [req_method req_headers req_body req_url];
            repeat (split; [reflexivity |]);
            apply prefix_of_append_both; reflexivity ].
Qed.

Lemma fetch_last_message_calls :
  forall P env c r w w',
    fetch_last_message P env c w = (r, w') ->
    sseClients w' = sseClients w /\ wire w' = wire w /\
    (calls w' = calls w \/
     exists q, calls w' = calls w ++ [q] /\ lookup_shaped env q).
Proof.
  intros P env c r w w' H. unfold fetch_last_message, try_catch in H.
  destruct (last_message_lookup P env c w) as [[c'|e] w1] eqn:Hrun;
    apply last_message_lookup_calls in Hrun.
  - inversion H; subst. exact Hrun.
  - destruct Hrun as (Hsse & Hwire & Hcalls).
    run_in H; inversion H; subst; unfold log_error; cbn [calls sseClients wire]; auto.
Qed.

Lemma for_each_conversation_calls :
  forall P env items r w w',
    for_each_conversation P env items w = (r, w') ->
    sseClients w' = sseClients w /\ wire w' = wire w /\
    exists lookups,
      calls w' = calls w ++ lookups /\
      (List.length lookups <= List.length items)%nat /\
      Forall (lookup_shaped env) lookups.
Proof.
  intros P env items. induction items as [|c rest IH]; intros r w w' H.
  - cbn in H. unfold ret in H. inversion H; subst.
    split; [reflexivity |]. split; [reflexivity |].
    exists []. rewrite app_nil_r. split; [reflexivity |]. split; [cbn; lia | constructor].
  - cbn [for_each_conversation] in H. unfold bind at 1 in H.
    destruct (fetch_last_message P env c w) as [[c'|e] w1] eqn:Hone;
      apply fetch_last_message_calls in Hone; destruct Hone as (Hsse1 & Hwire1 & Hcalls1).
    + unfold bind at 1 in H.
      destruct (for_each_conversation P env rest w1) as [[rest'|e] w2] eqn:Hloop;
        apply IH in Hloop; destruct Hloop as (Hsse2 & Hwire2 & l2 & Hcalls2 & Hlen2 & Hall2);
        unfold ret in H; inversion H; subst;
        (split; [congruence |]); (split; [congruence |]);
        (destruct Hcalls1 as [Hsame | (q & Hq & Hshape)];
         [exists l2; rewrite Hcalls2, Hsame; split; [reflexivity |];
          split; [cbn; lia | exact Hall2]
         | exists (q :: l2); rewrite Hcalls2, Hq, <- app_assoc; split; [reflexivity |];
           split; [cbn; lia | constructor; assumption]]).
    + inversion H; subst.
      split; [exact Hsse1 |]. split; [exact Hwire1 |].
      destruct Hcalls1 as [Hsame | (q & Hq & Hshape)];
        [exists []; rewrite app_nil_r; split; [exact Hsame |]; split; [cbn; lia | constructor]
        | exists [q]; split; [exact Hq |];
          split; [cbn; lia | constructor; [exact Hshape | constructor]]].
Qed.

(** The handler on a page of well-formed entries, up to the loop over the
    retained conversations. *)
Lemma get_conversations_page :
  forall P env query w req status props items,
    conversations_request env query = Normal req ->
    net P (List.length (calls w)) req = FetchResponse status (Normal (VObj props)) ->
    assoc "data" props = VArr items ->
    Forall conversation_entry items ->
    get_conversations P env query w =
    match for_each_conversation P env (filter single_participant items)
            (mkWorld (calls w ++ [req])
               (console w ++
                [ConsoleDiscarded
                   (Z.of_nat (List.length items) -
                    Z.of_nat (List.length (filter single_participant items)))
                   (Z.of_nat (List.length (filter single_participant items)))])
               (sseClients w) (wire w))
    with
    | (Normal items', w') =>
        (Normal (json_response status (VObj (set_own "data" (VArr items') props))), w')
    | (Throw e, w') =>
        (Normal (json_response 500 (VObj [("error", VStr "Falha ao carregar conversas")])),
         log_error "Error fetching conversations:" e w')
    end.
Proof.
  intros P env query w req status props items Hreq Hnet Hdata Hall.
  unfold get_conversations, try_catch.
  unfold bind at 1, lift. rewrite Hreq.
  unfold bind at 1, fetch. rewrite Hnet. cbv zeta.
  unfold bind at 1, response_json, lift. cbn [resp_json truthy].
  unfold bind at 1 2. cbn [get_prop]. rewrite Hdata.
  unfold bind at 1. rewrite (array_filter_spec items (entries_present items Hall)).
  unfold bind at 1. cbn [set_prop].
  unfold bind at 1, console_discarded, ret.
  unfold bind at 1. cbn [get_prop]. rewrite assoc_set_own.
  unfold bind at 1 2. cbn [calls console sseClients wire].
  destruct (for_each_conversation P env (filter single_participant items) _)
    as [[items'|e] w'].
  - cbn [set_prop]. rewrite set_own_twice. reflexivity.
  - reflexivity.
Qed.

Lemma sample_items_are_entries : Forall conversation_entry sample_items.
Proof. repeat constructor; eexists; reflexivity. Defined.

(** X15.  On a page of well-formed entries the upstream calls are the
    listing request followed by at most one look-up per one-to-one
    conversation, each a GET with the key under [/messages?]; discarded
    conversations cause no call, and the subscribers are left alone. *)
Theorem conversations_lookups_bounded :
  forall P env query w req status props items,
    conversations_request env query = Normal req ->
    net P (List.length (calls w)) req = FetchResponse status (Normal (VObj props)) ->
    assoc "data" props = VArr items ->
    Forall conversation_entry items ->
    exists lookups,
      calls (snd (get_conversations P env query w)) = calls w ++ req :: lookups /\
      (List.length lookups <= List.length (filter single_participant items))%nat /\
      Forall (lookup_shaped env) lookups /\
      sseClients (snd (get_conversations P env query w)) = sseClients w /\
      wire (snd (get_conversations P env query w)) = wire w.
Proof.
  intros P env query w req status props items Hreq Hnet Hdata Hall.
  rewrite (get_conversations_page P env query w req status props items Hreq Hnet Hdata Hall).
  destruct (for_each_conversation P env (filter single_participant items) _)
    as [r w'] eqn:Hloop.
  apply for_each_conversation_calls in Hloop. cbn [calls sseClients wire] in Hloop.
  destruct Hloop as (Hsse & Hwire & lookups & Hcalls & Hlen & Hshape).
  exists lookups.
  destruct r as [items'|e]; unfold log_error; cbn [snd calls sseClients wire];
    rewrite Hcalls, <- app_assoc; auto.
Qed.

Lemma conversations_lookups_bounded_witness :
  exists lookups,
    calls (snd (get_conversations (answering 200 (VObj sample_page)) env_sender (VObj []) fresh))
    = calls fresh ++
      mkRequest (OPENPHONE_API env_sender +++ "/conversations?" +++
                 params_toString [("maxResults", "40")])
                "GET" (authHeader env_sender) NoBody :: lookups /\
    (List.length lookups <= List.length (filter single_participant sample_items))%nat /\
    Forall (lookup_shaped env_sender) lookups /\
    sseClients (snd (get_conversations (answering 200 (VObj sample_page)) env_sender
                       (VObj []) fresh)) = sseClients fresh /\
    wire (snd (get_conversations (answering 200 (VObj sample_page)) env_sender
                 (VObj []) fresh)) = wire fresh.
Proof.
  exact (conversations_lookups_bounded (answering 200 (VObj sample_page)) env_sender (VObj [])
           fresh _ 200 sample_page sample_items eq_refl eq_refl eq_refl
           sample_items_are_entries).
Defined.

(** X16.  The look-up of a conversation asks for one message of its
    participant.  A 2xx answer with a first message attaches it as
    [lastMessage]; a 2xx answer without messages, and any other status,
    leave the conversation as it was; a failed call does too, and is
    logged under the conversation's id. *)
Theorem last_message_rule :
  forall P env props id phoneNumberId participant w,
    assoc "id" props = VStr id ->
    assoc "phoneNumberId" props = VStr phoneNumberId ->
    assoc "participants" props = VArr [VStr participant] ->
    let r := lookup_request env phoneNumberId participant in
    (forall st mprops m rest,
        net P (List.length (calls w)) r = FetchResponse st (Normal (VObj mprops)) ->
        (200 <= st <= 299)%Z ->
        assoc "data" mprops = VArr (m :: rest) ->
        fetch_last_message P env (VObj props) w =
        (Normal (VObj (set_own "lastMessage" m props)), after_call r w))
    /\
    (forall st mprops,
        net P (List.length (calls w)) r = FetchResponse st (Normal (VObj mprops)) ->
        (200 <= st <= 299)%Z ->
        assoc "data" mprops = VArr [] \/ assoc "data" mprops = VUndefined ->
        fetch_last_message P env (VObj props) w = (Normal (VObj props), after_call r w))
    /\
    (forall st js,
        net P (List.length (calls w)) r = FetchResponse st js ->
        (st < 200 \/ 299 < st)%Z ->
        fetch_last_message P env (VObj props) w = (Normal (VObj props), after_call r w))
    /\
    (forall e,
        net P (List.length (calls w)) r = FetchFailed e ->
        fetch_last_message P env (VObj props) w =
        (Normal (VObj props),
         log_error ("❌ Error fetching last message for conversation " +++ id +++ ":") e
           (after_call r w))).
Proof.
  intros P env props id phoneNumberId participant w Hid Hpn Hparts r.
  assert (Hstart :
            fetch_last_message P env (VObj props) w =
            try_catch
              (messagesResponse <- fetch P r ;;
               if resp_ok messagesResponse then
                 messagesData <- response_json messagesResponse ;;
                 data <- lift (get_prop messagesData "data") ;;
                 nonempty <- lift (if truthy data
                                   then len <~ get_prop data "length"; gt_zero P len
                                   else Normal false) ;;
                 if (nonempty : bool) then
                   first <- lift (get_index0 data) ;;
                   lift (set_prop (VObj props) "lastMessage" first)
                 else ret (VObj props)
               else ret (VObj props))
              (fun error =>
                 console_error
                   ("❌ Error fetching last message for conversation " +++ id +++ ":")
                   error ;;;
                 ret (VObj props)) w).
  { unfold fetch_last_message, last_message_lookup, try_catch.
    unfold bind at 1 2 3 4 5 6. unfold bind at 7 8. unfold lift.
    cbn [get_prop]. rewrite Hid, Hpn, Hparts.
    cbn [URLSearchParams to_js_string cbind forEach_append fold_left params_append app].
    reflexivity. }
  assert (Hok : forall st js, (200 <= st <= 299)%Z -> resp_ok (mkResponse st js) = true).
  { intros st js [Hlo Hhi]. unfold resp_ok. cbn [resp_status].
    apply andb_true_iff. split; apply Z.leb_le; assumption. }
  assert (Hbad : forall st js, (st < 200 \/ 299 < st)%Z -> resp_ok (mkResponse st js) = false).
  { intros st js Hst. unfold resp_ok. cbn [resp_status].
    apply andb_false_iff. destruct Hst; [left | right]; apply Z.leb_gt; assumption. }
  repeat split.
  - intros st mprops m rest Hnet Hst Hdata. rewrite Hstart.
    unfold try_catch. unfold bind at 1, fetch. rewrite Hnet. cbv zeta.
    rewrite (Hok _ _ Hst).
    unfold bind, response_json, lift. cbn [resp_json get_prop]. rewrite Hdata.
    cbn [truthy get_prop String.eqb Ascii.eqb Bool.eqb cbind gt_zero].
    replace (0 <? Z.of_nat (List.length (m :: rest)))%Z with true
      by (symmetry; apply Z.ltb_lt; cbn [List.length]; lia).
    reflexivity.
  - intros st mprops Hnet Hst Hdata. rewrite Hstart.
    unfold try_catch. unfold bind at 1, fetch. rewrite Hnet. cbv zeta.
    rewrite (Hok _ _ Hst).
    unfold bind, response_json, lift. cbn [resp_json get_prop].
    destruct Hdata as [-> | ->]; reflexivity.
  - intros st js Hnet Hst. rewrite Hstart.
    unfold try_catch. unfold bind at 1, fetch. rewrite Hnet. cbv zeta.
    rewrite (Hbad _ _ Hst). reflexivity.
  - intros e Hnet. rewrite Hstart.
    unfold try_catch. unfold bind at 1, fetch. rewrite Hnet. reflexivity.
Qed.

Lemma last_message_rule_witness :
  fetch_last_message (answering 200 messages_answer) env_sender (VObj sample_conversation) fresh
  = (Normal (VObj (set_own "lastMessage" (VObj [("id", VStr "AC1")]) sample_conversation)),
     after_call (lookup_request env_sender "PN1" "+15551234567") fresh).
Proof.
  refine (proj1 (last_message_rule (answering 200 messages_answer) env_sender
                   sample_conversation "CN1" "PN1" "+15551234567" fresh
                   eq_refl eq_refl eq_refl)
            200%Z [("data", VArr [VObj [("id", VStr "AC1")]])] (VObj [("id", VStr "AC1")]) []
            eq_refl _ eq_refl).
  lia.
Defined.

(** ** The life of a subscriber *)

(** The state a broadcast leaves. *)
Lemma broadcast_run :
  forall P type payload w,
    NoDup (sseClients w) ->
    snd (broadcast P type payload w) =
    mkWorld (calls w) (console w)
      (filter (fun c => chan P c (sse_frame type payload)) (sseClients w))
      (wire w ++ map (fun c => (c, sse_frame type payload, chan P c (sse_frame type payload)))
                     (sseClients w)).
Proof.
  intros P type payload w Hnd. unfold broadcast.
  rewrite (broadcast_loop_spec P (sse_frame type payload) (sseClients w) [] w eq_refl Hnd).
  reflexivity.
Qed.

Lemma in_attempts :
  forall (ok : client -> bool) (data : string) c d b l,
    In (c, d, b) (map (fun c0 => (c0, data, ok c0)) l) -> In c l /\ d = data /\ b = ok c.
Proof.
  intros ok data c d b l Hin. apply in_map_iff in Hin.
  destruct Hin as (c0 & Heq & Hin0). injection Heq as -> -> ->. auto.
Qed.

Lemma three_clients_distinct : NoDup (sseClients three_clients).
Proof. repeat constructor; simpl; intuition discriminate. Defined.

(** X17.  Closing a connection is idempotent and removes that subscriber
    only; the next broadcast writes nothing to it. *)
Theorem closed_client_gets_nothing :
  forall P c type payload w,
    NoDup (sseClients w) ->
    let w1 := snd (sse_delete c w) in
    snd (sse_delete c w1) = w1 /\
    ~ In c (sseClients w1) /\
    (forall c', c' <> c -> (In c' (sseClients w1) <-> In c' (sseClients w))) /\
    forall d ok, ~ In (c, d, ok) (wire_since w1 (snd (broadcast P type payload w1))).
Proof.
  intros P c type payload w Hnd w1.
  assert (Hgone : ~ In c (sseClients w1)).
  { subst w1. cbn [snd sse_delete sseClients]. intros Hin.
    apply filter_In in Hin. destruct Hin as [_ Hne].
    rewrite Nat.eqb_refl in Hne. discriminate Hne. }
  assert (Hnd1 : NoDup (sseClients w1)).
  { subst w1. cbn [snd sse_delete sseClients]. apply NoDup_filter. exact Hnd. }
  split; [| split; [exact Hgone | split]].
  - unfold sse_delete at 1. cbn [snd].
    rewrite (filter_others_id c (sseClients w1) Hgone).
    destruct w1; reflexivity.
  - intros c' Hne. subst w1. cbn [snd sse_delete sseClients].
    rewrite filter_In. split; [intros [Hin _]; exact Hin |].
    intros Hin. split; [exact Hin |].
    destruct (Nat.eqb_spec c c') as [Heq | _]; [exfalso; apply Hne; symmetry; exact Heq |].
    reflexivity.
  - intros d ok Hin. rewrite (broadcast_run P type payload w1 Hnd1) in Hin.
    unfold wire_since in Hin. cbn [wire] in Hin. rewrite skipn_exact in Hin.
    apply in_attempts in Hin. destruct Hin as [Hin _]. exact (Hgone Hin).
Qed.

Lemma closed_client_gets_nothing_witness :
  snd (sse_delete 2 (snd (sse_delete 2 three_clients))) = snd (sse_delete 2 three_clients) /\
  ~ In 2%nat (sseClients (snd (sse_delete 2 three_clients))) /\
  (forall c', c' <> 2%nat ->
              (In c' (sseClients (snd (sse_delete 2 three_clients))) <->
               In c' (sseClients three_clients))) /\
  forall d ok,
    ~ In (2%nat, d, ok)
         (wire_since (snd (sse_delete 2 three_clients))
            (snd (broadcast one_dead "openphone" VNull (snd (sse_delete 2 three_clients))))).
Proof.
  exact (closed_client_gets_nothing one_dead 2%nat "openphone" VNull three_clients
           three_clients_distinct).
Defined.

(** X18.  Two broadcasts in a row, the second against connections that may
    behave differently by then ([P'] for [P]: a client that took one frame
    can fail on the next, even on the same frame).  The second broadcast
    is attempted once on each subscriber that accepted the first, in their
    order, and on nobody else; who fails it is dropped as well; a
    subscriber whose write failed in the first broadcast is not written to
    again. *)
Theorem second_broadcast_reaches_survivors :
  forall P P' type payload type' payload' w,
    NoDup (sseClients w) ->
    let w1 := snd (broadcast P type payload w) in
    let w2 := snd (broadcast P' type' payload' w1) in
    wire_since w1 w2 =
    map (fun c => (c, sse_frame type' payload', chan P' c (sse_frame type' payload')))
        (filter (fun c => chan P c (sse_frame type payload)) (sseClients w))
    /\
    sseClients w2 =
    filter (fun c => chan P' c (sse_frame type' payload'))
           (filter (fun c => chan P c (sse_frame type payload)) (sseClients w))
    /\
    (forall c d d' ok,
        In (c, d, false) (wire_since w w1) -> ~ In (c, d', ok) (wire_since w1 w2)).
Proof.
  intros P P' type payload type' payload' w Hnd w1 w2.
  assert (Hw1 : w1 = mkWorld (calls w) (console w)
                      (filter (fun c => chan P c (sse_frame type payload)) (sseClients w))
                      (wire w ++ map (fun c => (c, sse_frame type payload,
                                                chan P c (sse_frame type payload)))
                                     (sseClients w))).
  { subst w1. apply broadcast_run. exact Hnd. }
  assert (Hnd1 : NoDup (sseClients w1)).
  { rewrite Hw1. cbn [sseClients]. apply NoDup_filter. exact Hnd. }
  assert (Hw2 : w2 = mkWorld (calls w1) (console w1)
                      (filter (fun c => chan P' c (sse_frame type' payload')) (sseClients w1))
                      (wire w1 ++ map (fun c => (c, sse_frame type' payload',
                                                 chan P' c (sse_frame type' payload')))
                                      (sseClients w1))).
  { subst w2. apply broadcast_run. exact Hnd1. }
  assert (Hsecond : wire_since w1 w2 =
                    map (fun c => (c, sse_frame type' payload',
                                   chan P' c (sse_frame type' payload')))
                        (filter (fun c => chan P c (sse_frame type payload)) (sseClients w))).
  { unfold wire_since. rewrite Hw2. cbn [wire]. rewrite skipn_exact.
    rewrite Hw1. reflexivity. }
  split; [exact Hsecond |]. split.
  - rewrite Hw2. cbn [sseClients]. rewrite Hw1. reflexivity.
  - intros c d d' ok Hfirst Hagain.
    unfold wire_since in Hfirst. rewrite Hw1 in Hfirst. cbn [wire] in Hfirst.
    rewrite skipn_exact in Hfirst.
    apply in_attempts in Hfirst. destruct Hfirst as (_ & _ & Hfailed).
    rewrite Hsecond in Hagain.
    apply in_attempts in Hagain. destruct Hagain as (Hin & _ & _).
    apply filter_In in Hin. destruct Hin as [_ Hok].
    rewrite Hok in Hfailed. discriminate Hfailed.
Qed.

Lemma second_broadcast_reaches_survivors_witness :
  wire_since (snd (broadcast one_dead "openphone" VNull three_clients))
    (snd (broadcast last_dead "openphone" VNull
            (snd (broadcast one_dead "openphone" VNull three_clients)))) =
  [(1%nat, sse_frame "openphone" VNull, true); (3%nat, sse_frame "openphone" VNull, false)]
  /\
  sseClients (snd (broadcast last_dead "openphone" VNull
                     (snd (broadcast one_dead "openphone" VNull three_clients)))) = [1%nat].
Proof.
  split.
  - exact (proj1 (second_broadcast_reaches_survivors one_dead last_dead "openphone" VNull
                    "openphone" VNull three_clients three_clients_distinct)).
  - exact (proj1 (proj2 (second_broadcast_reaches_survivors one_dead last_dead "openphone"
                           VNull "openphone" VNull three_clients three_clients_distinct))).
Defined.

Lemma not_registered :
  forall c w, ~ In c (sseClients w) -> registered c w = false.
Proof.
  intros c w Hnin. unfold registered.
  destruct (existsb (Nat.eqb c) (sseClients w)) eqn:Hex; [| reflexivity].
  exfalso. apply existsb_exists in Hex. destruct Hex as (x & Hin & Heq).
  apply Nat.eqb_eq in Heq. subst x. exact (Hnin Hin).
Qed.

(** X19.  A client that connects after a broadcast is sent nothing of it:
    its stream starts with the opening line, and the next broadcast is
    the first it is sent. *)
Theorem late_subscriber_misses_earlier_event :
  forall P c type payload type' payload' w,
    NoDup (sseClients w) ->
    ~ In c (sseClients w) ->
    chan P c nl = true ->
    let w1 := snd (broadcast P type payload w) in
    let w2 := snd (sse_connect P c w1) in
    let w3 := snd (broadcast P type' payload' w2) in
    (forall d ok, ~ In (c, d, ok) (wire_since w w1)) /\
    wire_since w1 w2 = [(c, nl, true)] /\
    In c (sseClients w2) /\
    In (c, sse_frame type' payload', chan P c (sse_frame type' payload')) (wire_since w2 w3).
Proof.
  intros P c type payload type' payload' w Hnd Hnew Hopen w1 w2 w3.
  assert (Hw1 : w1 = mkWorld (calls w) (console w)
                      (filter (fun c => chan P c (sse_frame type payload)) (sseClients w))
                      (wire w ++ map (fun c => (c, sse_frame type payload,
                                                chan P c (sse_frame type payload)))
                                     (sseClients w))).
  { subst w1. apply broadcast_run. exact Hnd. }
  assert (Hnew1 : ~ In c (sseClients w1)).
  { rewrite Hw1. cbn [sseClients]. intros Hin. apply filter_In in Hin.
    destruct Hin as [Hin _]. exact (Hnew Hin). }
  assert (Hnd1 : NoDup (sseClients w1)).
  { rewrite Hw1. cbn [sseClients]. apply NoDup_filter. exact Hnd. }
  assert (Hw2 : w2 = mkWorld (calls w1) (console w1) (sseClients w1 ++ [c])
                      (wire w1 ++ [(c, nl, true)])).
  { subst w2. unfold sse_connect, bind, client_write, sse_add. rewrite Hopen.
    cbn [snd]. unfold registered. cbn [sseClients].
    pose proof (not_registered c w1 Hnew1) as Hreg. unfold registered in Hreg.
    rewrite Hreg. reflexivity. }
  assert (Hnd2 : NoDup (sseClients w2)).
  { rewrite Hw2. cbn [sseClients]. apply NoDup_app; [exact Hnd1 | repeat constructor; intros [] |].
    intros x Hx [<- | []]. exact (Hnew1 Hx). }
  repeat split.
  - intros d ok Hin. unfold wire_since in Hin. rewrite Hw1 in Hin. cbn [wire] in Hin.
    rewrite skipn_exact in Hin. apply in_attempts in Hin. destruct Hin as [Hin _].
    exact (Hnew Hin).
  - unfold wire_since. rewrite Hw2. cbn [wire]. apply skipn_exact.
  - rewrite Hw2. cbn [sseClients]. apply in_or_app. right. left. reflexivity.
  - subst w3. rewrite (broadcast_run P type' payload' w2 Hnd2).
    unfold wire_since. cbn [wire]. rewrite skipn_exact.
    apply in_map_iff. exists c. split; [reflexivity |].
    rewrite Hw2. cbn [sseClients]. apply in_or_app. right. left. reflexivity.
Qed.

Lemma late_subscriber_misses_earlier_event_witness :
  (forall d ok,
      ~ In (7%nat, d, ok)
           (wire_since three_clients (snd (broadcast one_dead "openphone" VNull three_clients))))
  /\
  wire_since (snd (broadcast one_dead "openphone" VNull three_clients))
    (snd (sse_connect one_dead 7 (snd (broadcast one_dead "openphone" VNull three_clients))))
  = [(7%nat, nl, true)].
Proof.
  destruct (late_subscriber_misses_earlier_event one_dead 7%nat "openphone" VNull
              "openphone" (VBool true) three_clients three_clients_distinct)
    as (Hmissed & Hopened & _).
  - simpl. intuition discriminate.
  - reflexivity.
  - split; [exact Hmissed | exact Hopened].
Defined.



(** X21.  A webhook whose type contains [message] is acknowledged with 200
    and its body, as received, goes to every subscriber as an [openphone]
    event; subscribers whose write fails are dropped; nothing is sent
    upstream. *)
Theorem webhook_delivers_message_events :
  forall P props s w,
    NoDup (sseClients w) ->
    assoc "type" props = VStr s ->
    includes_str "message" s = true ->
    webhook_openphone P (VObj props) w =
    (Normal (json_response 200 (VObj [("ok", VBool true)])),
     mkWorld (calls w) (console w)
       (filter (fun c => chan P c (sse_frame "openphone" (VObj props))) (sseClients w))
       (wire w ++ map (fun c => (c, sse_frame "openphone" (VObj props),
                                 chan P c (sse_frame "openphone" (VObj props))))
                      (sseClients w))).
Proof.
  intros P props s w Hnd Htype Hmsg.
  unfold webhook_openphone, try_catch, bind, lift, opt_chain.
  cbn [nullish get_prop cbind]. rewrite Htype.
  cbn [nullish call_includes truthy]. rewrite Hmsg.
  rewrite broadcast_normal. rewrite (broadcast_run P "openphone" (VObj props) w Hnd).
  reflexivity.
Qed.

Lemma webhook_delivers_message_events_witness :
  webhook_openphone one_dead (VObj [("type", VStr "message.received")]) three_clients =
  (Normal (json_response 200 (VObj [("ok", VBool true)])),
   mkWorld (calls three_clients) (console three_clients)
     (filter (fun c => chan one_dead c
                         (sse_frame "openphone" (VObj [("type", VStr "message.received")])))
             (sseClients three_clients))
     (wire three_clients ++
      map (fun c => (c, sse_frame "openphone" (VObj [("type", VStr "message.received")]),
                     chan one_dead c
                       (sse_frame "openphone" (VObj [("type", VStr "message.received")]))))
          (sseClients three_clients))).
Proof.
  exact (webhook_delivers_message_events one_dead [("type", VStr "message.received")]
           "message.received" three_clients three_clients_distinct eq_refl eq_refl).
Defined.

(** ** The reporting scripts *)

Lemma fetchPage_calls :
  forall U P env token size c w w',
    fetchPage U P env token size w = (c, w') ->
    console w' = console w /\ sseClients w' = sseClients w /\ wire w' = wire w /\
    (calls w' = calls w \/
     exists r, calls w' = calls w ++ [r] /\ listing_shaped env r).
Proof.
  intros U P env token size c w w' H. unfold fetchPage in H.
  run_in H; injection H as <- <-; cbn [calls console sseClients wire];
    repeat (split; [reflexivity |]);
    first [ left; reflexivity
          | right; eexists; split; [reflexivity |]; repeat split ].
Qed.

Lemma fetch_pages_calls :
  forall U P env size remaining token all c w w',
    fetch_pages U P env size remaining token all w = (c, w') ->
    exists pages,
      calls w' = calls w ++ pages /\
      (List.length pages <= remaining)%nat /\
      Forall (listing_shaped env) pages.
Proof.
  intros U P env size remaining.
  induction remaining as [|later IH]; intros token all c w w' H.
  - cbn in H. unfold ret in H. injection H as <- <-.
    exists []. rewrite app_nil_r. split; [reflexivity |]. split; [cbn; lia | constructor].
  - cbn [fetch_pages] in H. unfold bind at 1 in H.
    destruct (fetchPage U P env token size w) as [[data|e] w1] eqn:Hpage;
      apply fetchPage_calls in Hpage; destruct Hpage as (_ & _ & _ & Hcalls).
    + unfold bind at 1, lift in H.
      destruct (get_prop data "data") as [page|e]; cbv beta iota in H.
      * unfold bind at 1, lift in H.
        destruct (get_prop data "nextPageToken") as [next|e]; cbv beta iota in H.
        -- destruct (truthy next).
           ++ apply IH in H. destruct H as (pages & Hrest & Hlen & Hall).
              destruct Hcalls as [Hsame | (r & Hone & Hshape)].
              ** exists pages. rewrite Hrest, Hsame. split; [reflexivity |].
                 split; [lia | exact Hall].
              ** exists (r :: pages). rewrite Hrest, Hone, <- app_assoc.
                 split; [reflexivity |]. split; [cbn; lia | constructor; assumption].
           ++ unfold ret in H. injection H as <- <-.
              destruct Hcalls as [Hsame | (r & Hone & Hshape)].
              ** exists []. rewrite app_nil_r. split; [exact Hsame |].
                 split; [cbn; lia | constructor].
              ** exists [r]. split; [exact Hone |].
                 split; [cbn; lia | constructor; [exact Hshape | constructor]].
        -- injection H as <- <-.
           destruct Hcalls as [Hsame | (r & Hone & Hshape)].
           ++ exists []. rewrite app_nil_r. split; [exact Hsame |].
              split; [cbn; lia | constructor].
           ++ exists [r]. split; [exact Hone |].
              split; [cbn; lia | constructor; [exact Hshape | constructor]].
      * injection H as <- <-.
        destruct Hcalls as [Hsame | (r & Hone & Hshape)].
        -- exists []. rewrite app_nil_r. split; [exact Hsame |].
           split; [cbn; lia | constructor].
        -- exists [r]. split; [exact Hone |].
           split; [cbn; lia | constructor; [exact Hshape | constructor]].
    + injection H as <- <-.
      destruct Hcalls as [Hsame | (r & Hone & Hshape)].
      * exists []. rewrite app_nil_r. split; [exact Hsame |].
        split; [cbn; lia | constructor].
      * exists [r]. split; [exact Hone |].
        split; [cbn; lia | constructor; [exact Hshape | constructor]].
Qed.

(** X22.  [fetchAllConversations] issues at most [limitPages] requests
    (10 when the argument is left out), each a GET with the API key, and
    none at all when the limit is zero or negative. *)
Theorem fetchAllConversations_bounded :
  forall U P env limitPages pageSize w,
    exists pages,
      calls (snd (fetchAllConversations U P env limitPages pageSize w)) = calls w ++ pages /\
      (Z.of_nat (List.length pages) <= page_limit limitPages)%Z /\
      Forall (listing_shaped env) pages /\
      (page_limit limitPages = 0%Z ->
       fetchAllConversations U P env limitPages pageSize w = (Normal [], w)).
Proof.
  intros U P env limitPages pageSize w.
  destruct (fetchAllConversations U P env limitPages pageSize w) as [c w'] eqn:H.
  pose proof H as Hrun. unfold fetchAllConversations in Hrun.
  apply fetch_pages_calls in Hrun. destruct Hrun as (pages & Hcalls & Hlen & Hall).
  exists pages. cbn [snd]. split; [exact Hcalls |].
  split; [destruct limitPages as [n|]; unfold page_limit; lia |].
  split; [exact Hall |].
  intros Hzero. rewrite <- H. unfold fetchAllConversations.
  destruct limitPages as [n|]; unfold page_limit in Hzero; [| discriminate Hzero].
  replace (Z.to_nat n) with 0%nat by lia. reflexivity.
Qed.

Lemma fetchAllConversations_bounded_witness :
  fetchAllConversations plain_urls offline env_sender (Some 0%Z) VUndefined fresh
  = (Normal [], fresh).
Proof.
  destruct (fetchAllConversations_bounded plain_urls offline env_sender (Some 0%Z) VUndefined
              fresh) as (pages & _ & _ & _ & Hnone).
  apply Hnone. reflexivity.
Defined.

Lemma fetchPage_answered :
  forall U P env token pageSize w st page size,
    (forall b, url_parse U b = Normal tt) ->
    to_js_string (default_param pageSize (VNum 50)) = Normal size ->
    (truthy token = true -> exists t, to_js_string token = Normal t) ->
    (forall r, net P (List.length (calls w)) r = FetchResponse st (Normal page)) ->
    (200 <= st <= 299)%Z ->
    exists r,
      fetchPage U P env token pageSize w =
      (Normal page, mkWorld (calls w ++ [r]) (console w) (sseClients w) (wire w)).
Proof.
  intros U P env token pageSize w st page size Hurl Hsize Htoken Hnet [Hlo Hhi].
  assert (Hok : forall js, resp_ok (mkResponse st js) = true).
  { intros js. unfold resp_ok. cbn [resp_status].
    apply andb_true_iff. split; apply Z.leb_le; assumption. }
  destruct (fetchPage U P env token pageSize w) as [c w'] eqn:H.
  unfold fetchPage in H. unfold bind, lift in H.
  rewrite Hurl in H. cbv beta iota in H. rewrite Hsize in H. cbv beta iota in H.
  destruct (truthy token) eqn:Ht;
    [destruct (Htoken eq_refl) as [t Hpr]; rewrite Hpr in H; cbn [cbind] in H |];
    run_in H;
    repeat match goal with
           | Hn : net _ _ ?r = _ |- _ =>
               pose proof (Hnet r) as Hsame; rewrite Hn in Hsame;
               try discriminate Hsame; injection Hsame as Hs Hj; subst; clear Hn
           | Hr : negb (resp_ok _) = true |- _ => rewrite Hok in Hr; discriminate Hr
           end;
    try discriminate;
    injection H as <- <-; eexists; reflexivity.
Qed.

Lemma fetchPage_request :
  forall U P env pageToken token pageSize w st page size,
    (forall b, url_parse U b = Normal tt) ->
    to_js_string (default_param pageSize (VNum 50)) = Normal size ->
    carries pageToken token ->
    net P (List.length (calls w)) (page_request U env size token) =
      FetchResponse st (Normal page) ->
    (200 <= st <= 299)%Z ->
    fetchPage U P env pageToken pageSize w =
    (Normal page, after_call (page_request U env size token) w).
Proof.
  intros U P env pageToken token pageSize w st page size Hurl Hsize Hcarries Hnet [Hlo Hhi].
  assert (Hok : forall js, resp_ok (mkResponse st js) = true).
  { intros js. unfold resp_ok. cbn [resp_status].
    apply andb_true_iff. split; apply Z.leb_le; assumption. }
  unfold fetchPage. unfold bind at 1, lift. rewrite Hurl.
  unfold bind at 1. rewrite Hsize.
  unfold bind at 1.
  destruct token as [t|]; cbn [carries] in Hcarries.
  - destruct Hcarries as [Htruthy Hprint]. rewrite Htruthy, Hprint. cbn [cbind].
    unfold bind at 1, fetch.
    change (mkRequest _ "GET" (authHeader env) NoBody)
      with (page_request U env size (Some t)).
    rewrite Hnet. unfold bind at 1, response_json, lift. cbn [resp_json].
    rewrite Hok. reflexivity.
  - rewrite Hcarries.
    unfold bind at 1, fetch.
    change (mkRequest _ "GET" (authHeader env) NoBody)
      with (page_request U env size None).
    rewrite Hnet. unfold bind at 1, response_json, lift. cbn [resp_json].
    rewrite Hok. reflexivity.
Qed.

Lemma fetch_pages_paged :
  forall U P env pageSize size
         (st : nat -> Z) (props : nat -> list (string * value))
         (items : nat -> list value) (next : nat -> value) (token : nat -> string)
         n j pageToken all w base,
    (forall b, url_parse U b = Normal tt) ->
    to_js_string (default_param pageSize (VNum 50)) = Normal size ->
    carries pageToken (token_before token j) ->
    List.length (calls w) = (base + j)%nat ->
    (forall k, (j <= k < j + n)%nat ->
       net P (base + k) (page_request U env size (token_before token k)) =
         FetchResponse (st k) (Normal (VObj (props k))) /\
       (200 <= st k <= 299)%Z /\
       assoc "data" (props k) = VArr (items k) /\
       assoc "nextPageToken" (props k) = next k /\
       truthy (next k) = true /\
       to_js_string (next k) = Normal (token k)) ->
    fetch_pages U P env pageSize n pageToken all w =
    (Normal (all ++ List.concat (map items (seq j n))),
     mkWorld (calls w ++ map (fun k => page_request U env size (token_before token k)) (seq j n))
             (console w) (sseClients w) (wire w)).
Proof.
  intros U P env pageSize size st props items next token n.
  induction n as [|n IH]; intros j pageToken all w base Hurl Hsize Hcarries Hlen Hpages.
  - cbn. unfold ret. rewrite !app_nil_r. destruct w; reflexivity.
  - destruct (Hpages j ltac:(lia)) as (Hnet & Hst & Hdata & Hnext & Htruthy & Hprint).
    rewrite <- Hlen in Hnet.
    cbn [fetch_pages]. unfold bind at 1.
    rewrite (fetchPage_request U P env pageToken (token_before token j) pageSize w
               (st j) (VObj (props j)) size Hurl Hsize Hcarries Hnet Hst).
    unfold bind at 1 2, lift. cbn [get_prop]. rewrite Hdata, Hnext, Htruthy.
    rewrite (IH (S j) (next j) (all ++ items j)
               (after_call (page_request U env size (token_before token j)) w) base
               Hurl Hsize).
    + cbn [seq map List.concat]. unfold after_call. cbn [calls console sseClients wire].
      rewrite <- !app_assoc. reflexivity.
    + cbn [token_before carries]. split; assumption.
    + unfold after_call. cbn [calls]. rewrite length_app, Hlen. cbn. lia.
    + intros k Hk. apply Hpages. lia.
Qed.

(** X23.  A provider that answers the request for each of the first [n]
    pages with a 2xx page announcing a next one, the pages differing from
    one another: with the limit [n], [fetchAllConversations] issues exactly
    [n] requests, the first without token and each later one with the
    token the page before announced, and returns the entries of the pages
    in the order they were fetched.  The limit is what ends the
    pagination. *)
Theorem fetchAllConversations_stops_at_limit :
  forall U P env pageSize size n w
         (st : nat -> Z) (props : nat -> list (string * value))
         (items : nat -> list value) (next : nat -> value) (token : nat -> string),
    (forall b, url_parse U b = Normal tt) ->
    to_js_string (default_param pageSize (VNum 50)) = Normal size ->
    (forall k, (k < n)%nat ->
       net P (List.length (calls w) + k) (page_request U env size (token_before token k)) =
         FetchResponse (st k) (Normal (VObj (props k))) /\
       (200 <= st k <= 299)%Z /\
       assoc "data" (props k) = VArr (items k) /\
       assoc "nextPageToken" (props k) = next k /\
       truthy (next k) = true /\
       to_js_string (next k) = Normal (token k)) ->
    fetchAllConversations U P env (Some (Z.of_nat n)) pageSize w =
    (Normal (List.concat (map items (seq 0 n))),
     mkWorld (calls w ++ map (fun k => page_request U env size (token_before token k)) (seq 0 n))
             (console w) (sseClients w) (wire w)).
Proof.
  intros U P env pageSize size n w st props items next token Hurl Hsize Hpages.
  unfold fetchAllConversations. rewrite Nat2Z.id.
  assert (Hsize' : to_js_string (default_param (default_param pageSize (VNum 50)) (VNum 50))
                   = Normal size).
  { destruct pageSize; exact Hsize. }
  apply (fetch_pages_paged U P env (default_param pageSize (VNum 50)) size st props items
           next token n 0 VUndefined [] w (List.length (calls w)) Hurl Hsize').
  - reflexivity.
  - lia.
  - intros k Hk. apply Hpages. lia.
Qed.

Lemma fetchAllConversations_stops_at_limit_witness :
  fetchAllConversations plain_urls paging env_sender (Some (Z.of_nat 3)) VUndefined fresh =
  (Normal [VNum 0; VNum 1; VNum 2],
   mkWorld [page_request plain_urls env_sender "50" None;
            page_request plain_urls env_sender "50" (Some "T0");
            page_request plain_urls env_sender "50" (Some "T1")] [] [] []).
Proof.
  refine (fetchAllConversations_stops_at_limit plain_urls paging env_sender VUndefined "50" 3
            fresh (fun _ => 200%Z) numbered_page (fun k => [VNum (Z.of_nat k)])
            (fun k => VStr ("T" +++ decimal (Z.of_nat k)))
            (fun k => "T" +++ decimal (Z.of_nat k)) _ eq_refl _).
  - intros b. reflexivity.
  - intros k _. repeat split; try reflexivity; lia.
Defined.

(** X24.  A first page without [nextPageToken] ends the pagination: one
    request, and the entries of that page. *)
Theorem fetchAllConversations_last_page :
  forall U P env limitPages pageSize st props items size w,
    (forall b, url_parse U b = Normal tt) ->
    to_js_string (default_param pageSize (VNum 50)) = Normal size ->
    (forall r, net P (List.length (calls w)) r = FetchResponse st (Normal (VObj props))) ->
    (200 <= st <= 299)%Z ->
    assoc "data" props = VArr items ->
    truthy (assoc "nextPageToken" props) = false ->
    (0 < page_limit limitPages)%Z ->
    exists r,
      fetchAllConversations U P env limitPages pageSize w =
      (Normal items, mkWorld (calls w ++ [r]) (console w) (sseClients w) (wire w)).
Proof.
  intros U P env limitPages pageSize st props items size w
         Hurl Hsize Hnet Hst Hdata Hlast Hlimit.
  unfold fetchAllConversations.
  assert (Hsize' : to_js_string (default_param (default_param pageSize (VNum 50)) (VNum 50))
                   = Normal size).
  { destruct pageSize; exact Hsize. }
  destruct (fetchPage_answered U P env VUndefined (default_param pageSize (VNum 50)) w st
              (VObj props) size Hurl Hsize' (fun H => ltac:(discriminate H)) Hnet Hst)
    as [r Hpage].
  exists r.
  assert (Hpos : exists k, Z.to_nat match limitPages with Some n => n | None => 10%Z end = S k).
  { destruct limitPages as [n|]; unfold page_limit in Hlimit.
    - exists (Z.to_nat n - 1)%nat. lia.
    - exists 9%nat. reflexivity. }
  destruct Hpos as [k ->]. cbn [fetch_pages]. unfold bind at 1. rewrite Hpage.
  unfold bind at 1 2, lift. cbn [get_prop]. rewrite Hdata, Hlast. reflexivity.
Qed.

Lemma fetchAllConversations_last_page_witness :
  exists r,
    fetchAllConversations plain_urls (answering 200 (VObj sample_page)) env_sender None
      VUndefined fresh =
    (Normal sample_items,
     mkWorld (calls fresh ++ [r]) (console fresh) (sseClients fresh) (wire fresh)).
Proof.
  refine (fetchAllConversations_last_page plain_urls (answering 200 (VObj sample_page))
            env_sender None VUndefined 200 sample_page sample_items "50" fresh
            _ eq_refl _ _ eq_refl eq_refl _).
  - intros b. reflexivity.
  - intros r. reflexivity.
  - lia.
  - reflexivity.
Defined.

Lemma classify_one_spec :
  forall acc c,
    nullish c = false ->
    exists s',
      classify_one acc c =
      Normal (mkClassification
                (withContacts acc ++ (if has_contacts c then [c] else []))
                (withoutContacts acc ++ (if has_contacts c then [] else [c]))
                s'
                (groups acc ++ (if is_group c then [c] else []))
                (solo acc ++ (if is_group c then [] else [c]))) /\
      (stringParticipants s' + objectParticipants s' + mixedParticipants s' <=
       S (stringParticipants (stats acc) + objectParticipants (stats acc) +
          mixedParticipants (stats acc)))%nat.
Proof.
  intros acc c Hc.
  assert (Hcontacts :
            forall v, get_prop c "participantContacts" = Normal v ->
                      (if is_array v
                       then len <~ get_prop v "length";
                            Normal (match len with
                                    | VNum n => (0 <? n)%Z
                                    | _ => false
                                    end)
                       else Normal false) = Normal (has_contacts c)).
  { intros v Hv. destruct c as [| |b|n|s|items|props]; try discriminate Hc;
      cbn [get_prop String.eqb Ascii.eqb Bool.eqb] in Hv; injection Hv as <-;
      try reflexivity.
    cbn [has_contacts]. destruct (assoc "participantContacts" props); try reflexivity.
    cbn [is_array get_prop String.eqb Ascii.eqb Bool.eqb cbind]. f_equal.
    destruct items as [|x items]; [reflexivity |]. cbn [List.length].
    transitivity true; [apply Z.ltb_lt; lia | reflexivity]. }
  assert (Hparts :
            forall v, get_prop c "participants" = Normal v ->
                      (1 <? match v with VArr items => List.length items | _ => 0%nat end)%nat
                      = is_group c).
  { intros v Hv. destruct c as [| |b|n|s|items|props]; try discriminate Hc;
      cbn [get_prop String.eqb Ascii.eqb Bool.eqb] in Hv; injection Hv as <-;
      try reflexivity.
    cbn [is_group]. destruct (assoc "participants" props); reflexivity. }
  unfold classify_one.
  destruct (get_prop c "participantContacts") as [contacts|e] eqn:Hpc;
    [| destruct c; try discriminate Hc; discriminate Hpc].
  cbn [cbind]. rewrite (Hcontacts contacts eq_refl). cbn [cbind].
  destruct (get_prop c "participants") as [participants|e] eqn:Hp;
    [| destruct c; try discriminate Hc; discriminate Hp].
  cbn [cbind]. rewrite (Hparts participants eq_refl).
  eexists. split.
  - destruct (has_contacts c), (is_group c); rewrite ?app_nil_r; reflexivity.
  - destruct (existsb (String.eqb "object") _), (existsb (String.eqb "string") _);
      cbn [andb stringParticipants objectParticipants mixedParticipants]; lia.
Qed.

Lemma classify_from_spec :
  forall convs acc,
    Forall present convs ->
    exists r,
      classify_from acc convs = Normal r /\
      withContacts r = withContacts acc ++ filter has_contacts convs /\
      withoutContacts r = withoutContacts acc ++ filter (fun c => negb (has_contacts c)) convs /\
      groups r = groups acc ++ filter is_group convs /\
      solo r = solo acc ++ filter (fun c => negb (is_group c)) convs /\
      (stringParticipants (stats r) + objectParticipants (stats r) + mixedParticipants (stats r)
       <= stringParticipants (stats acc) + objectParticipants (stats acc) +
          mixedParticipants (stats acc) + List.length convs)%nat.
Proof.
  intros convs. induction convs as [|c rest IH]; intros acc Hall.
  - exists acc. cbn. rewrite !app_nil_r. repeat split; lia.
  - inversion Hall as [|? ? Hc Hrest]; subst.
    destruct (classify_one_spec acc c Hc) as (s' & Hone & Hstats).
    cbn [classify_from]. rewrite Hone. cbn [cbind].
    match goal with
    | |- context [classify_from ?acc' rest] =>
        destruct (IH acc' Hrest) as (r & Hrun & Hwc & Hwo & Hg & Hs & Hcount)
    end.
    exists r. cbn [withContacts withoutContacts groups solo stats] in *.
    split; [exact Hrun |].
    cbn [filter]. rewrite Hwc, Hwo, Hg, Hs.
    destruct (has_contacts c), (is_group c); cbn [negb]; rewrite <- ?app_assoc;
      repeat split; try reflexivity; cbn [List.length]; lia.
Qed.

Lemma sample_items_present : Forall present sample_items.
Proof. repeat constructor. Defined.

(** X25.  [classifyConversations] splits its input twice, each time into
    two lists that keep the order and together hold every entry once:
    groups and solo, with and without contacts.  The three type counters
    count each conversation at most once. *)
Theorem classifyConversations_partitions :
  forall convs,
    Forall present convs ->
    exists r,
      classifyConversations convs = Normal r /\
      groups r = filter is_group convs /\
      solo r = filter (fun c => negb (is_group c)) convs /\
      withContacts r = filter has_contacts convs /\
      withoutContacts r = filter (fun c => negb (has_contacts c)) convs /\
      (List.length (groups r) + List.length (solo r) = List.length convs)%nat /\
      (List.length (withContacts r) + List.length (withoutContacts r) = List.length convs)%nat /\
      (stringParticipants (stats r) + objectParticipants (stats r) + mixedParticipants (stats r)
       <= List.length convs)%nat.
Proof.
  intros convs Hall. unfold classifyConversations.
  destruct (classify_from_spec convs (mkClassification [] [] (mkTypeStats 0 0 0) [] []) Hall)
    as (r & Hrun & Hwc & Hwo & Hg & Hs & Hcount).
  cbn [withContacts withoutContacts groups solo stats stringParticipants objectParticipants
       mixedParticipants app] in *.
  exists r. rewrite Hwc, Hwo, Hg, Hs.
  repeat split; try assumption; try reflexivity.
  - apply filter_length.
  - apply filter_length.
Qed.

Lemma classifyConversations_partitions_witness :
  exists r,
    classifyConversations sample_items = Normal r /\
    groups r = filter is_group sample_items /\
    solo r = filter (fun c => negb (is_group c)) sample_items /\
    withContacts r = filter has_contacts sample_items /\
    withoutContacts r = filter (fun c => negb (has_contacts c)) sample_items /\
    (List.length (groups r) + List.length (solo r) = List.length sample_items)%nat /\
    (List.length (withContacts r) + List.length (withoutContacts r)
     = List.length sample_items)%nat /\
    (stringParticipants (stats r) + objectParticipants (stats r) + mixedParticipants (stats r)
     <= List.length sample_items)%nat.
Proof.
  exact (classifyConversations_partitions sample_items sample_items_present).
Defined.

Lemma classifyConversations_partitions_aux :
  forall convs,
    Forall present convs ->
    exists r,
      classifyConversations convs = Normal r /\
      groups r = filter is_group convs /\
      solo r = filter (fun c => negb (is_group c)) convs.
Proof.
  intros convs Hall. unfold classifyConversations.
  destruct (classify_from_spec convs (mkClassification [] [] (mkTypeStats 0 0 0) [] []) Hall)
    as (r & Hrun & _ & _ & Hg & Hs & _).
  exists r. auto.
Qed.

(** X26.  The script and the server agree on groups: the server's filter
    keeps no conversation the script calls a group, and what it keeps is
    what it would keep of the script's solo list.  What the server
    discards beyond the groups are the solo entries without exactly one
    participant. *)
Theorem groups_are_what_the_server_drops :
  forall convs r,
    Forall present convs ->
    classifyConversations convs = Normal r ->
    filter single_participant (groups r) = [] /\
    filter single_participant (solo r) = filter single_participant convs /\
    (List.length convs - List.length (filter single_participant convs) =
     List.length (groups r) +
     List.length (filter (fun c => negb (single_participant c)) (solo r)))%nat.
Proof.
  intros convs r Hall Hrun.
  destruct (classifyConversations_partitions_aux convs Hall) as (r' & Hrun' & Hg & Hs).
  rewrite Hrun in Hrun'. injection Hrun' as <-.
  assert (Hexcl : forall c, is_group c = true -> single_participant c = false).
  { intros c Hc. destruct c as [| |b|n|s|items|props]; try reflexivity.
    cbn [is_group single_participant] in *.
    destruct (assoc "participants" props) as [| |b|n|s|items|props']; try reflexivity.
    destruct items as [|x [|y rest]]; try reflexivity; discriminate Hc. }
  rewrite Hg, Hs. clear Hrun Hg Hs Hall.
  induction convs as [|c rest IH]; [repeat split; reflexivity |].
  destruct IH as (IH1 & IH2 & IH3).
  pose proof (filter_length_le single_participant rest) as Hle.
  cbn [filter]. destruct (is_group c) eqn:Hc; cbn [negb filter].
  - rewrite (Hexcl c Hc). cbn [negb filter List.length].
    split; [exact IH1 |]. split; [exact IH2 |]. lia.
  - destruct (single_participant c) eqn:Hsp; cbn [negb filter List.length].
    + split; [exact IH1 |]. split; [rewrite IH2; reflexivity |]. lia.
    + split; [exact IH1 |]. split; [exact IH2 |]. lia.
Qed.

Lemma groups_are_what_the_server_drops_witness :
  exists r,
    classifyConversations sample_items = Normal r /\
    filter single_participant (groups r) = [] /\
    filter single_participant (solo r) = filter single_participant sample_items.
Proof.
  eexists. split; [reflexivity |].
  destruct (groups_are_what_the_server_drops sample_items _ sample_items_present eq_refl)
    as (Hgroups & Hsolo & _).
  split; [exact Hgroups | exact Hsolo].
Defined.

Lemma array_filter_total :
  forall (f : value -> completion bool) (g : value -> bool) convs,
    (forall c, present c -> f c = Normal (g c)) ->
    Forall present convs ->
    array_filter f convs = Normal (filter g convs).
Proof.
  intros f g convs Hfg Hall. induction Hall as [|c rest Hc _ IH]; [reflexivity |].
  cbn [array_filter filter]. rewrite (Hfg c Hc), IH. reflexivity.
Qed.

(** X27.  [findSoloByNumber] returns the one-to-one conversations that list
    the number and [findGroupsByNumber] the groups that list it; a
    conversation that lists the number is of exactly one of the two
    kinds. *)
Theorem find_by_number_splits :
  forall convs number,
    Forall present convs ->
    findSoloByNumber convs number =
    Normal (filter (fun c => single_participant c && mentions number c) convs) /\
    findGroupsByNumber convs number =
    Normal (filter (fun c => is_group c && mentions number c) convs) /\
    forall c,
      In c convs -> mentions number c = true ->
      (single_participant c = true /\ is_group c = false) \/
      (single_participant c = false /\ is_group c = true).
Proof.
  intros convs number Hall. split; [| split].
  - apply array_filter_total; [| exact Hall].
    intros c Hc. destruct c as [| |b|n|s|items|props]; try discriminate Hc; try reflexivity.
    cbn [get_prop cbind single_participant mentions].
    destruct (assoc "participants" props) as [| |b|n|s|items|props']; try reflexivity.
    cbn [is_array get_prop String.eqb Ascii.eqb Bool.eqb cbind].
    destruct items as [|x [|y rest]]; try reflexivity.
    + cbn [List.length get_index0 nth cbind existsb andb]. rewrite orb_false_r. reflexivity.
    + replace (Z.of_nat (List.length (x :: y :: rest)) =? 1)%Z with false
        by (symmetry; apply Z.eqb_neq; cbn [List.length]; lia).
      reflexivity.
  - apply array_filter_total; [| exact Hall].
    intros c Hc. destruct c as [| |b|n|s|items|props]; try discriminate Hc; try reflexivity.
    cbn [get_prop cbind is_group mentions].
    destruct (assoc "participants" props) as [| |b|n|s|items|props']; try reflexivity.
    cbn [is_array get_prop String.eqb Ascii.eqb Bool.eqb cbind].
    destruct (1 <? List.length items)%nat eqn:Hlen.
    + replace (1 <? Z.of_nat (List.length items))%Z with true
        by (symmetry; apply Z.ltb_lt; apply Nat.ltb_lt in Hlen; lia).
      reflexivity.
    + replace (1 <? Z.of_nat (List.length items))%Z with false
        by (symmetry; apply Z.ltb_ge; apply Nat.ltb_ge in Hlen; lia).
      reflexivity.
  - intros c _ Hm. destruct c as [| |b|n|s|items|props]; try discriminate Hm.
    cbn [mentions single_participant is_group] in *.
    destruct (assoc "participants" props) as [| |b|n|s|items|props']; try discriminate Hm.
    destruct items as [|x [|y rest]]; [discriminate Hm | left | right]; split; reflexivity.
Qed.

Lemma find_by_number_splits_witness :
  findSoloByNumber sample_items "+15551234567" =
  Normal (filter (fun c => single_participant c && mentions "+15551234567" c) sample_items) /\
  findGroupsByNumber sample_items "+15551234567" =
  Normal (filter (fun c => is_group c && mentions "+15551234567" c) sample_items).
Proof.
  destruct (find_by_number_splits sample_items "+15551234567" sample_items_present)
    as (Hsolo & Hgroups & _).
  split; [exact Hsolo | exact Hgroups].
Defined.
